(** * Multitask prompt tuning: the task-conditioned prompt table

    A shallow embedding of [src/peft/tuners/multitask_prompt_tuning.py]:
    the configuration dataclass, the construction of
    [MultitaskPromptEmbedding] with its five initialisation modes, and the
    lookup [forward].

    Tensors are modelled the way torch stores them: a shape and a flat,
    row-major list of elements.  Parameters live in a heap of tensors so
    that the two in-place operations of the source ([load_state_dict]'s
    copy into the parameters and [prompt_embeddings *= task_prompts]) are
    writes to a location, and aliasing is visible.  Python exceptions are
    values of [exn]; a computation that raises keeps the world it had
    reached. *)

From Stdlib Require Import PrimFloat Uint63 ZArith Lia List String.
From stdpp Require Import base list gmap strings.

Open Scope string_scope.
Open Scope list_scope.
Open Scope nat_scope.

(** ** Scalars *)

(** The element type of a floating tensor with the operations the source
    reaches through torch: sums and products (matmul, [*=]) and the division
    by a count (mean). No algebraic law is assumed. *)
Class Scalar (F : Type) := {
  s_zero : F;
  s_add : F -> F -> F;
  s_mul : F -> F -> F;
  s_div : F -> F -> F;
  s_of_nat : nat -> F
}.

#[global] Instance scalar_inhabited `{Scalar F} : Inhabited F := populate s_zero.

(** IEEE-754 binary64, the kernel's primitive floats. *)
#[global] Instance float_scalar : Scalar float := {|
  s_zero := 0%float;
  s_add := PrimFloat.add;
  s_mul := PrimFloat.mul;
  s_div := PrimFloat.div;
  s_of_nat := fun n => PrimFloat.of_uint63 (Uint63.of_Z (Z.of_nat n))
|}.

(** Left-to-right sum starting from zero. *)
Definition s_sum `{Scalar F} (xs : list F) : F := fold_left s_add xs s_zero.

(** ** Tensors *)

Record tensor (A : Type) := Tensor { shape : list nat; data : list A }.
Arguments Tensor {A} shape data.
Arguments shape {A} t.
Arguments data {A} t.

Definition numel (sh : list nat) : nat := fold_right Nat.mul 1 sh.

(** A tensor is well formed when its storage has one element per index. *)
Definition wf {A} (t : tensor A) : Prop := length (data t) = numel (shape t).

(** Row-major offset of a multi-index, and its inverse. *)
Fixpoint ravel (sh idx : list nat) : nat :=
  match sh, idx with
  | _ :: sh', i :: idx' => i * numel sh' + ravel sh' idx'
  | _, _ => 0
  end.

Fixpoint unravel (sh : list nat) (p : nat) : list nat :=
  match sh with
  | [] => []
  | _ :: sh' => p / numel sh' :: unravel sh' (p mod numel sh')
  end.

Definition in_bounds (sh idx : list nat) : Prop := Forall2 lt idx sh.

Definition tget {A} `{Inhabited A} (t : tensor A) (idx : list nat) : A :=
  nth (ravel (shape t) idx) (data t) inhabitant.

(** The tensor of shape [sh] whose entry at [idx] is [f idx]. *)
Definition tinit {A} (sh : list nat) (f : list nat -> A) : tensor A :=
  Tensor sh (map (fun p => f (unravel sh p)) (seq 0 (numel sh))).


(** ** Python exceptions *)

(** The exceptions the source and the torch operations it calls can raise.
    [Unmodelled] marks a torch behaviour outside this development (operand
    ranks that the module's own parameters never have); no theorem below is
    proved through it. *)
Inductive exn :=
| ValueError (msg : string)
| AssertionError (msg : string)
| KeyError (key : string)
| IndexError
| RuntimeError
| FileNotFoundError (path : string)
| Unmodelled.

Inductive result (A : Type) := Ok (a : A) | Raise (e : exn).
Arguments Ok {A} a.
Arguments Raise {A} e.

(** ** The torch operations the source calls, on values *)

Module torch.
Section Ops.
Context {F : Type} `{Scalar F}.

(** [t.unsqueeze(0)] *)
Definition unsqueeze0 {A} (t : tensor A) : tensor A :=
  Tensor (1 :: shape t) (data t).

(** [t[k, ...]]: an integer selects along the first dimension, a negative
    one counts from the end; [None] inserts a new axis. *)
Definition getitem0 (k : option Z) (t : tensor F) : result (tensor F) :=
  match k with
  | None => Ok (unsqueeze0 t)
  | Some k =>
      match shape t with
      | [] => Raise IndexError
      | n :: sh =>
          let k' := (if decide (k < 0) then k + Z.of_nat n else k)%Z in
          if decide (0 <= k' < Z.of_nat n)%Z
          then Ok (tinit sh (fun idx => tget t (Z.to_nat k' :: idx)))
          else Raise IndexError
      end
  end.

(** [t.mean(0, keepdim=True)]: the sum along the first dimension divided
    by its size. *)
Definition mean0_keepdim (t : tensor F) : tensor F :=
  match shape t with
  | [] => tinit [] (fun _ => s_div (s_sum [tget t []]) (s_of_nat 1))
  | n :: sh =>
      tinit (1 :: sh)
        (fun idx => s_div (s_sum (map (fun s => tget t (s :: tl idx)) (seq 0 n)))
                          (s_of_nat n))
  end.

(** [torch.nn.functional.embedding]: row [indices[..]] of [weight] for
    every entry of [indices]; the result is a new tensor. *)
Definition embedding (weight : tensor F) (indices : tensor Z) : result (tensor F) :=
  match shape weight with
  | [v; d] =>
      if decide (Forall (fun i => 0 <= i < Z.of_nat v)%Z (data indices))
      then Ok (tinit (shape indices ++ [d])
                 (fun idx => tget weight
                               [Z.to_nat (tget indices (removelast idx)); List.last idx 0]))
      else Raise IndexError
  | _ => Raise Unmodelled
  end.

(** [torch.index_select(t, 0, index)]: [index] is a vector (or 0-dim) of
    positions along the first dimension; negative positions do not wrap. *)
Definition index_select0 (t : tensor F) (index : tensor Z) : result (tensor F) :=
  if decide (length (shape index) <= 1) then
    match shape t with
    | n :: sh =>
        if decide (Forall (fun i => 0 <= i < Z.of_nat n)%Z (data index))
        then Ok (tinit (numel (shape index) :: sh)
                   (fun idx => tget t (Z.to_nat (tget index [hd 0 idx]) :: tl idx)))
        else Raise IndexError
    | [] => Raise Unmodelled
    end
  else Raise IndexError.

(** [torch.matmul] of two 3-dimensional operands with the same batch size:
    one matrix product per batch element. *)
Definition matmul (a b : tensor F) : result (tensor F) :=
  match shape a, shape b with
  | [ba; n; r], [bb; r'; d] =>
      if decide (ba = bb) then
        if decide (r = r') then
          Ok (tinit [ba; n; d]
                (fun idx =>
                   let x := nth 0 idx 0 in
                   let i := nth 1 idx 0 in
                   let j := nth 2 idx 0 in
                   s_sum (map (fun k => s_mul (tget a [x; i; k]) (tget b [x; k; j]))
                              (seq 0 r))))
        else Raise RuntimeError
      else Raise Unmodelled
  | _, _ => Raise Unmodelled
  end.

(** Broadcasting of [other] to the shape of [self], as an in-place operation
    needs it: shapes are aligned at the last dimension, and every dimension
    of [other] is the one of [self] or 1. *)
Fixpoint expandable_rev (rself rother : list nat) : bool :=
  match rother, rself with
  | [], _ => true
  | o :: rother', s :: rself' =>
      (Nat.eqb o s || Nat.eqb o 1) && expandable_rev rself' rother'
  | _ :: _, [] => false
  end.

Definition expandable (self_shape other_shape : list nat) : bool :=
  expandable_rev (rev self_shape) (rev other_shape).

Definition broadcast_index (other_shape idx : list nat) : list nat :=
  zip_with (fun o i => if Nat.eqb o 1 then 0 else i) other_shape
    (skipn (length idx - length other_shape) idx).

(** The value [self.mul_(other)] leaves in [self]. *)
Definition mul_ (self other : tensor F) : result (tensor F) :=
  if expandable (shape self) (shape other)
  then Ok (tinit (shape self)
             (fun idx => s_mul (tget self idx)
                               (tget other (broadcast_index (shape other) idx))))
  else Raise RuntimeError.
End Ops.
End torch.

(** ** The world: heap of tensors, random stream position, event log *)

Definition loc := nat.

(** What the construction does to the outside, in order: a draw from the
    normal distribution of a given size, a checkpoint read, a state-dict
    load. *)
Inductive event :=
| EvNormal (size : list nat)
| EvTorchLoad (path : string)
| EvLoadStateDict (strict : bool).

Record world (F : Type) := World {
  heap : list (tensor F);
  rng : nat;
  log : list event
}.
Arguments World {F} heap rng log.
Arguments heap {F} w.
Arguments rng {F} w.
Arguments log {F} w.

(** What the program reads and does not own: the stream of normal samples
    ([gauss k] is the [k]-th number the generator yields), the values the
    base prompt-tuning component puts in its embedding table, and the
    checkpoints on disk, by path. *)
Record environment (F : Type) := Environment {
  gauss : nat -> F;
  base_policy : tensor F -> nat -> F;
  files : string -> result (gmap string (tensor F))
}.
Arguments Environment {F} gauss base_policy files.
Arguments gauss {F} e.
Arguments base_policy {F} e.
Arguments files {F} e.

(** A computation runs in a world and ends in a world, with a value or a
    raised exception. *)
Definition M (F A : Type) : Type := world F -> world F * result A.

#[global] Instance M_ret {F} : MRet (M F) := fun A a w => (w, Ok a).
#[global] Instance M_bind {F} : MBind (M F) := fun A B f c w =>
  match c w with
  | (w', Ok a) => f a w'
  | (w', Raise e) => (w', Raise e)
  end.

Section Effects.
Context {F : Type} `{Scalar F}.

Definition raise {A} (e : exn) : M F A := fun w => (w, Raise e).

Definition lift {A} (r : result A) : M F A := fun w => (w, r).

Definition emit (e : event) : M F unit :=
  fun w => (World (heap w) (rng w) (log w ++ [e]), Ok tt).

Definition alloc (t : tensor F) : M F loc :=
  fun w => (World (heap w ++ [t]) (rng w) (log w), Ok (length (heap w))).

Definition read (l : loc) : M F (tensor F) :=
  fun w => (w, Ok (nth l (heap w) (Tensor [0] []))).

Definition write (l : loc) (t : tensor F) : M F unit :=
  fun w => (World (<[l := t]> (heap w)) (rng w) (log w), Ok tt).

(** [d[key]] on a Python dict. *)
Definition getitem {V} (d : gmap string V) (key : string) : M F V :=
  match d !! key with
  | Some v => mret v
  | None => raise (KeyError key)
  end.

(** [assert x is not None, msg] *)
Definition assert_not_none {A} (x : option A) (msg : string) : M F A :=
  match x with
  | Some a => mret a
  | None => raise (AssertionError msg)
  end.
End Effects.

(** ** Configuration *)

Inductive MultitaskPromptTuningInit :=
| TEXT
| RANDOM
| AVERAGE_SOURCE_TASKS
| EXACT_SOURCE_TASK
| ONLY_SOURCE_SHARED.

#[global] Instance MultitaskPromptTuningInit_eq_dec : EqDecision MultitaskPromptTuningInit.
Proof. solve_decision. Defined.

(** The member's value: the enum derives from [str], each member is the
    string of its name. *)
Definition value (m : MultitaskPromptTuningInit) : string :=
  match m with
  | TEXT => "TEXT"
  | RANDOM => "RANDOM"
  | AVERAGE_SOURCE_TASKS => "AVERAGE_SOURCE_TASKS"
  | EXACT_SOURCE_TASK => "EXACT_SOURCE_TASK"
  | ONLY_SOURCE_SHARED => "ONLY_SOURCE_SHARED"
  end.

(** [Union[MultitaskPromptTuningInit, str]] *)
Inductive init_setting :=
| Member (m : MultitaskPromptTuningInit)
| Str (s : string).

Definition str_of (x : init_setting) : string :=
  match x with
  | Member m => value m
  | Str s => s
  end.

(** [x == m] and [x in [m1, m2, ...]]: members compare as the strings they
    are. *)
Definition init_eq (x : init_setting) (m : MultitaskPromptTuningInit) : bool :=
  String.eqb (str_of x) (value m).

Definition init_in (x : init_setting) (ms : list MultitaskPromptTuningInit) : bool :=
  existsb (init_eq x) ms.

(** The text an f-string puts for [{config.prompt_tuning_init}]. *)
Definition format_init (x : init_setting) : string := str_of x.

(** Modelled from the spec: the type tag of the adapter-injection framework
    ([PeftType] of [..utils], not part of these sources), "a fixed type tag
    identifying this as the multitask-prompt-tuning variant". *)
Definition PeftType := string.
Definition MULTITASK_PROMPT_TUNING : PeftType := "MULTITASK_PROMPT_TUNING".

Module MultitaskPromptTuningConfig.
Record t := Build {
  (* fields of the base prompt-tuning configuration that the table reads *)
  peft_type : option PeftType;
  num_virtual_tokens : nat;
  num_transformer_submodules : nat;
  token_dim : nat;
  (* fields of this dataclass *)
  prompt_tuning_init : init_setting;
  prompt_tuning_init_state_dict_path : option string;
  prompt_tuning_init_task : option Z;
  num_ranks : nat;
  num_tasks : nat
}.

Definition __post_init__ (self : t) : t :=
  Build (Some MULTITASK_PROMPT_TUNING)
    (num_virtual_tokens self) (num_transformer_submodules self) (token_dim self)
    (prompt_tuning_init self) (prompt_tuning_init_state_dict_path self)
    (prompt_tuning_init_task self) (num_ranks self) (num_tasks self).

(** The dataclass constructor: a keyword that is not supplied ([None]
    here) takes the field's default. *)
Definition new (num_virtual_tokens num_transformer_submodules token_dim : nat)
    (prompt_tuning_init : option init_setting)
    (prompt_tuning_init_state_dict_path : option (option string))
    (prompt_tuning_init_task : option (option Z))
    (num_ranks num_tasks : option nat) : t :=
  __post_init__
    (Build None num_virtual_tokens num_transformer_submodules token_dim
       (default (Member RANDOM) prompt_tuning_init)
       (default None prompt_tuning_init_state_dict_path)
       (default (Some 0%Z) prompt_tuning_init_task)
       (default 1 num_ranks)
       (default 1 num_tasks)).
End MultitaskPromptTuningConfig.

(** ** The task-conditioned prompt table *)

Module MultitaskPromptEmbedding.
Import MultitaskPromptTuningConfig.

(** The module object: its three parameters are tensors of the heap.
    [embedding] is the weight of the base class's [torch.nn.Embedding]. *)
Record t := Build {
  embedding : loc;
  prefix_task_cols : loc;
  prefix_task_rows : loc;
  num_tasks : nat;
  num_ranks : nat;
  num_virtual_tokens : nat;
  num_transformer_submodules : nat;
  token_dim : nat
}.

Inductive load_outcome := Copied | Missing | SizeMismatch.

#[global] Instance load_outcome_eq_dec : EqDecision load_outcome.
Proof. solve_decision. Defined.

Section Table.
Context {F : Type} `{Scalar F} (env : environment F).

(** [torch.normal(mean=0, std=0.02, size=size)]: the next [numel size]
    numbers of the generator. *)
Definition torch_normal (size : list nat) : M F (tensor F) :=
  fun w =>
    (World (heap w) (rng w + numel size) (log w ++ [EvNormal size]),
     Ok (Tensor size (map (gauss env) (seq (rng w) (numel size))))).

(** [torch.nn.Parameter(t)] *)
Definition nn_Parameter (x : tensor F) : M F loc := alloc x.

(** [torch.load(path, map_location=...)] *)
Definition torch_load (path : string) : M F (gmap string (tensor F)) :=
  emit (EvTorchLoad path);; lift (files env path).

(** Modelled from the spec: the constructor of the base class
    [PromptEmbedding] ([.prompt_tuning], not part of these sources):
    "allocate [base_vectors] via the base prompt-tuning mechanism's own
    initialization policy", a table of shape
    [[total_virtual_tokens, token_dim]]. *)
Definition PromptEmbedding___init__ (config : MultitaskPromptTuningConfig.t)
    (word_embeddings : tensor F) : M F loc :=
  let total_virtual_tokens :=
    MultitaskPromptTuningConfig.num_virtual_tokens config
    * MultitaskPromptTuningConfig.num_transformer_submodules config in
  let size := [total_virtual_tokens; MultitaskPromptTuningConfig.token_dim config] in
  alloc (Tensor size (map (base_policy env word_embeddings) (seq 0 (numel size)))).

(** One parameter of [load_state_dict]: a key that is present and has
    the parameter's shape is copied into the parameter in place. *)
Definition load_from_state_dict (state_dict : gmap string (tensor F))
    (key : string) (param : loc) : M F load_outcome :=
  match state_dict !! key with
  | None => mret Missing
  | Some input_param =>
      p ← read param;
      if decide (shape input_param = shape p)
      then write param (Tensor (shape p) (data input_param));; mret Copied
      else mret SizeMismatch
  end.

(** [torch.nn.Module.load_state_dict]: a size mismatch is always an
    error; a missing or an unexpected key is one when [strict]. *)
Definition load_state_dict (self : t) (state_dict : gmap string (tensor F))
    (strict : bool) : M F unit :=
  emit (EvLoadStateDict strict);;
  o1 ← load_from_state_dict state_dict "prefix_task_cols" (prefix_task_cols self);
  o2 ← load_from_state_dict state_dict "prefix_task_rows" (prefix_task_rows self);
  o3 ← load_from_state_dict state_dict "embedding.weight" (embedding self);
  let outcomes := [o1; o2; o3] in
  let size_mismatch := bool_decide (SizeMismatch ∈ outcomes) in
  let missing_keys := bool_decide (Missing ∈ outcomes) in
  let unexpected_keys :=
    bool_decide (¬ dom state_dict ⊆
      ({["prefix_task_cols"; "prefix_task_rows"; "embedding.weight"]} : gset string)) in
  if size_mismatch || strict && (missing_keys || unexpected_keys)
  then raise RuntimeError
  else mret tt.

Definition __init__ (config : MultitaskPromptTuningConfig.t)
    (word_embeddings : tensor F) : M F t :=
  embedding ← PromptEmbedding___init__ config word_embeddings;
  let num_tasks := MultitaskPromptTuningConfig.num_tasks config in
  let num_ranks := MultitaskPromptTuningConfig.num_ranks config in
  let num_virtual_tokens := MultitaskPromptTuningConfig.num_virtual_tokens config in
  let num_transformer_submodules :=
    MultitaskPromptTuningConfig.num_transformer_submodules config in
  let token_dim := MultitaskPromptTuningConfig.token_dim config in
  let total_virtual_tokens := num_virtual_tokens * num_transformer_submodules in
  cols ← torch_normal [num_tasks; total_virtual_tokens; num_ranks];
  prefix_task_cols ← nn_Parameter cols;
  rows ← torch_normal [num_tasks; num_ranks; token_dim];
  prefix_task_rows ← nn_Parameter rows;
  let self :=
    Build embedding prefix_task_cols prefix_task_rows num_tasks num_ranks
      num_virtual_tokens num_transformer_submodules token_dim in
  (* [state_dict] stays unbound in Python when no source mode is chosen;
     it is not read then *)
  state_dict ←
    (if init_in (prompt_tuning_init config)
          [AVERAGE_SOURCE_TASKS; EXACT_SOURCE_TASK; ONLY_SOURCE_SHARED]
     then
       match prompt_tuning_init_state_dict_path config with
       | None =>
           raise (ValueError
             ("prompt_tuning_init_state_dict_path needs to be specified with "
              ++ format_init (prompt_tuning_init config) ++ " init method")%string)
       | Some path => torch_load path
       end
     else mret ∅);
  (if init_in (prompt_tuning_init config) [AVERAGE_SOURCE_TASKS; EXACT_SOURCE_TASK]
   then
     prefix_task_cols_ ← getitem state_dict "prefix_task_cols";
     prefix_task_rows_ ← getitem state_dict "prefix_task_rows";
     factors ←
       (if init_eq (prompt_tuning_init config) AVERAGE_SOURCE_TASKS
        then
          mret (torch.mean0_keepdim prefix_task_cols_,
                torch.mean0_keepdim prefix_task_rows_)
        else if init_eq (prompt_tuning_init config) EXACT_SOURCE_TASK
        then
          c ← lift (torch.getitem0 (prompt_tuning_init_task config) prefix_task_cols_);
          r ← lift (torch.getitem0 (prompt_tuning_init_task config) prefix_task_rows_);
          mret (torch.unsqueeze0 c, torch.unsqueeze0 r)
        else mret (prefix_task_cols_, prefix_task_rows_));
     prompt_embeddings ← getitem state_dict "prompt_embeddings";
     let state_dict : gmap string (tensor F) :=
       <["embedding.weight" := prompt_embeddings]>
         (<["prefix_task_cols" := factors.1]>
            (<["prefix_task_rows" := factors.2]> ∅)) in
     load_state_dict self state_dict true
   else if init_eq (prompt_tuning_init config) ONLY_SOURCE_SHARED
   then
     prompt_embeddings ← getitem state_dict "prompt_embeddings";
     let state_dict : gmap string (tensor F) :=
       <["embedding.weight" := prompt_embeddings]> ∅ in
     load_state_dict self state_dict false
   else mret tt);;
  mret self.

(** [self.embedding(indices)]: the lookup of the base table, a new
    tensor. *)
Definition Embedding_call (weight : loc) (indices : tensor Z) : M F loc :=
  w ← read weight;
  out ← lift (torch.embedding w indices);
  alloc out.

(** [x *= other] *)
Definition imul (x : loc) (other : tensor F) : M F unit :=
  self ← read x;
  v ← lift (torch.mul_ self other);
  write x v.

Definition forward (self : t) (indices : tensor Z) (task_ids : option (tensor Z))
    : M F loc :=
  task_ids ← assert_not_none task_ids "task_ids cannot be None";
  prompt_embeddings ← Embedding_call (embedding self) indices;
  cols ← read (prefix_task_cols self);
  task_cols ← lift (torch.index_select0 cols task_ids);
  rows ← read (prefix_task_rows self);
  task_rows ← lift (torch.index_select0 rows task_ids);
  task_prompts ← lift (torch.matmul task_cols task_rows);
  imul prompt_embeddings task_prompts;;
  mret prompt_embeddings.
End Table.
End MultitaskPromptEmbedding.

(** * Facts about the model *)

(** ** Indexing *)

Section TensorFacts.
Context {A : Type} `{Inhabited A}.

Lemma ravel_lt sh idx : in_bounds sh idx -> ravel sh idx < numel sh.
Proof.
  intros Hb. induction Hb as [|i n idx sh Hi Hb IH]; simpl; [lia|].
  nia.
Qed.

Lemma unravel_ravel sh idx : in_bounds sh idx -> unravel sh (ravel sh idx) = idx.
Proof.
  intros Hb. induction Hb as [|i n idx sh Hi Hb IH]; simpl; [done|].
  pose proof (ravel_lt _ _ Hb) as Hlt.
  rewrite Nat.div_add_l by lia.
  rewrite (Nat.div_small (ravel sh idx)) by lia.
  rewrite (Nat.add_comm (i * numel sh)), Nat.Div0.mod_add, Nat.mod_small by lia.
  rewrite IH. f_equal. lia.
Qed.

Lemma ravel_unravel sh p : p < numel sh -> ravel sh (unravel sh p) = p.
Proof.
  revert p. induction sh as [|n sh IH]; intros p Hp; simpl in *; [lia|].
  assert (numel sh <> 0) by (intros E; rewrite E in Hp; lia).
  rewrite IH by (apply Nat.mod_upper_bound; lia).
  pose proof (Nat.div_mod_eq p (numel sh)). lia.
Qed.

Lemma tinit_shape sh (f : list nat -> A) : shape (tinit sh f) = sh.
Proof. reflexivity. Qed.

Lemma tinit_wf sh (f : list nat -> A) : wf (tinit sh f).
Proof. unfold wf, tinit. simpl. by rewrite length_map, length_seq. Qed.

Lemma nth_tabulate (g : nat -> A) n p d : p < n -> nth p (map g (seq 0 n)) d = g p.
Proof.
  intros Hp. rewrite (nth_indep _ d (g 0)) by (by rewrite length_map, length_seq).
  rewrite (map_nth g (seq 0 n) 0 p), seq_nth by done. done.
Qed.

Lemma tget_tinit sh (f : list nat -> A) idx :
  in_bounds sh idx -> tget (tinit sh f) idx = f idx.
Proof.
  intros Hb. unfold tget, tinit. simpl.
  rewrite nth_tabulate by (by apply ravel_lt).
  by rewrite unravel_ravel.
Qed.

Lemma tabulate_nth (l : list A) d : map (fun p => nth p l d) (seq 0 (length l)) = l.
Proof.
  apply nth_ext with (d := d) (d' := d).
  - by rewrite length_map, length_seq.
  - intros n Hn. rewrite length_map, length_seq in Hn. by rewrite nth_tabulate.
Qed.
End TensorFacts.

(** ** Facts about the torch operations *)

Section OpFacts.
Context {F : Type} `{Scalar F}.

Lemma getitem0_nonneg (t : tensor F) n sh (k : Z) :
  shape t = n :: sh -> (0 <= k < Z.of_nat n)%Z ->
  torch.getitem0 (Some k) t = Ok (tinit sh (fun idx => tget t (Z.to_nat k :: idx))).
Proof.
  intros Hs Hk. unfold torch.getitem0. rewrite Hs. cbv zeta.
  destruct (decide (k < 0)%Z); [lia|]. by rewrite decide_True by lia.
Qed.

Lemma getitem0_negative (t : tensor F) n sh (k : Z) :
  shape t = n :: sh -> (- Z.of_nat n <= k < 0)%Z ->
  torch.getitem0 (Some k) t
  = Ok (tinit sh (fun idx => tget t (Z.to_nat (k + Z.of_nat n) :: idx))).
Proof.
  intros Hs Hk. unfold torch.getitem0. rewrite Hs. cbv zeta.
  destruct (decide (k < 0)%Z); [|lia]. by rewrite decide_True by lia.
Qed.

Lemma getitem0_out_of_range (t : tensor F) n sh (k : Z) :
  shape t = n :: sh -> (k < - Z.of_nat n \/ Z.of_nat n <= k)%Z ->
  torch.getitem0 (Some k) t = Raise IndexError.
Proof.
  intros Hs Hk. unfold torch.getitem0. rewrite Hs. cbv zeta.
  destruct (decide (k < 0)%Z); by rewrite decide_False by lia.
Qed.

(** Selecting the only slice of a tensor whose first dimension is 1 and
    putting the dimension back gives the tensor itself. *)
Lemma unsqueeze0_select_first (t : tensor F) sh :
  wf t -> shape t = 1 :: sh ->
  torch.unsqueeze0 (tinit sh (fun idx => tget t (0 :: idx))) = t.
Proof.
  intros Hwf Hs. destruct t as [tsh tdata]. unfold wf in Hwf. simpl in *. subst tsh.
  unfold torch.unsqueeze0, tinit, tget. simpl. f_equal.
  simpl in Hwf. rewrite Nat.add_0_r in Hwf. rewrite <- Hwf.
  rewrite <- (tabulate_nth tdata inhabitant) at 2.
  apply map_ext_in. intros p Hp. apply in_seq in Hp.
  rewrite ravel_unravel by lia. done.
Qed.

Lemma expandable_rev_refl sh : torch.expandable_rev sh sh = true.
Proof. induction sh as [|n sh IH]; simpl; [done|]. by rewrite Nat.eqb_refl, IH. Qed.

Lemma expandable_refl sh : torch.expandable sh sh = true.
Proof. apply expandable_rev_refl. Qed.

Lemma broadcast_index_in_bounds sh idx :
  in_bounds sh idx -> torch.broadcast_index sh idx = idx.
Proof.
  intros Hb. unfold torch.broadcast_index.
  rewrite (Forall2_length _ _ _ Hb), Nat.sub_diag. change (skipn 0 idx) with idx.
  induction Hb as [|i n idx sh Hi Hb IH]; simpl; [done|].
  rewrite IH. destruct (Nat.eqb_spec n 1); [f_equal; lia | done].
Qed.

(** Multiplying in place by a tensor of the same shape is the entrywise
    product. *)
Lemma mul__same_shape (x y : tensor F) :
  shape y = shape x ->
  torch.mul_ x y = Ok (tinit (shape x) (fun idx => s_mul (tget x idx) (tget y (torch.broadcast_index (shape x) idx)))).
Proof.
  intros Hs. unfold torch.mul_. rewrite Hs, expandable_refl. done.
Qed.
End OpFacts.

#[global] Instance result_ret : MRet result := fun A a => Ok a.
#[global] Instance result_bind : MBind result := fun A B f r =>
  match r with
  | Ok a => f a
  | Raise e => Raise e
  end.

(** ** The lookup as a function of the parameter values *)

Section Lookup.
Context {F : Type} `{Scalar F}.
Import MultitaskPromptEmbedding.

Definition deref (w : world F) (l : loc) : tensor F := nth l (heap w) (Tensor [0] []).

(** What a call hands back: the tensor behind the returned reference, or
    the exception. *)
Definition outcome (r : world F * result loc) : result (tensor F) :=
  match r with
  | (w', Ok l) => Ok (deref w' l)
  | (_, Raise e) => Raise e
  end.

(** The lookup in the spec's words: gather the base vectors, gather the
    factors of each batch element's task, multiply the factors as
    matrices, multiply entrywise into the base. *)
Definition compose (base_vectors task_cols task_rows : tensor F)
    (indices : tensor Z) (task_ids : option (tensor Z)) : result (tensor F) :=
  match task_ids with
  | None => Raise (AssertionError "task_ids cannot be None")
  | Some task_ids =>
      base ← torch.embedding base_vectors indices;
      cols ← torch.index_select0 task_cols task_ids;
      rows ← torch.index_select0 task_rows task_ids;
      modulation ← torch.matmul cols rows;
      torch.mul_ base modulation
  end.

Lemma deref_alloc_old (w : world F) l x :
  l < length (heap w) -> nth l (heap w ++ [x]) (Tensor [0] []) = deref w l.
Proof. intros Hl. unfold deref. by rewrite app_nth1. Qed.

Lemma forward_compose (self : t) (indices : tensor Z) (task_ids : option (tensor Z))
    (w : world F) :
  embedding self < length (heap w) ->
  prefix_task_cols self < length (heap w) ->
  prefix_task_rows self < length (heap w) ->
  outcome (forward self indices task_ids w)
  = compose (deref w (embedding self)) (deref w (prefix_task_cols self))
      (deref w (prefix_task_rows self)) indices task_ids.
Proof.
  intros He Hc Hr. unfold forward, compose.
  destruct task_ids as [tids|]; [|done].
  unfold Embedding_call, imul, read, write, alloc, lift, mbind, M_bind, result_bind,
    assert_not_none, mret, M_ret. simpl.
  fold (deref w (embedding self)).
  destruct (torch.embedding _ indices) as [base|e]; [|done]. simpl.
  rewrite !deref_alloc_old by done.
  destruct (torch.index_select0 (deref w (prefix_task_cols self)) tids) as [cols|e]; [|done].
  destruct (torch.index_select0 (deref w (prefix_task_rows self)) tids) as [rows|e]; [|done].
  destruct (torch.matmul cols rows) as [modulation|e]; [|done]. simpl.
  rewrite nth_middle.
  destruct (torch.mul_ base modulation) as [v|e]; [|done]. simpl.
  unfold deref. simpl.
  rewrite insert_app_r_alt by done. rewrite Nat.sub_diag. simpl.
  by rewrite nth_middle.
Qed.

(** A call touches no tensor that existed before it, draws no random
    number and does nothing to the outside. *)
Lemma forward_frame (self : t) (indices : tensor Z) (task_ids : option (tensor Z))
    (w : world F) :
  let w' := (forward self indices task_ids w).1 in
  (forall l, l < length (heap w) -> heap w' !! l = heap w !! l)
  /\ rng w' = rng w /\ log w' = log w.
Proof.
  unfold forward.
  destruct task_ids as [tids|]; [|done].
  unfold Embedding_call, imul, read, write, alloc, lift, mbind, M_bind,
    assert_not_none, mret, M_ret. simpl.
  destruct (torch.embedding _ indices) as [base|e]; [|done]. simpl.
  assert (Hold : forall (x : tensor F) l, l < length (heap w) ->
            (heap w ++ [x]) !! l = heap w !! l)
    by (intros; by apply lookup_app_l).
  destruct (torch.index_select0 _ tids) as [cols|e]; [|by split; [apply Hold|]].
  destruct (torch.index_select0 _ tids) as [rows|e]; [|by split; [apply Hold|]].
  destruct (torch.matmul cols rows) as [modulation|e]; [|by split; [apply Hold|]]. simpl.
  destruct (torch.mul_ _ modulation) as [v|e]; [|by split; [apply Hold|]]. simpl.
  split; [|done]. intros l Hl.
  rewrite list_lookup_insert_ne by lia. by apply Hold.
Qed.
End Lookup.

Section ComposeEntries.
Context {F : Type} `{Scalar F}.

(** Entry [[b; i; j]] of the result the spec describes:
    [base_vectors[indices[b, i], j]] times entry [[i; j]] of the matrix
    product of the factors of task [task_ids[b]]. *)
Definition composed_entry (W C R : tensor F) (indices tids : tensor Z) (r : nat)
    (b i j : nat) : F :=
  let task := Z.to_nat (tget tids [b]) in
  s_mul (tget W [Z.to_nat (tget indices [b; i]); j])
        (s_sum (map (fun k => s_mul (tget C [task; i; k]) (tget R [task; k; j]))
                    (seq 0 r))).

Lemma in_bounds3 a b c x y z : x < a -> y < b -> z < c -> in_bounds [a; b; c] [x; y; z].
Proof. intros. repeat constructor; done. Qed.

Lemma compose_entries (W C R : tensor F) (indices tids : tensor Z) v d T n r B :
  shape W = [v; d] -> shape C = [T; n; r] -> shape R = [T; r; d] ->
  shape indices = [B; n] ->
  Forall (fun i => 0 <= i < Z.of_nat v)%Z (data indices) ->
  shape tids = [B] ->
  Forall (fun i => 0 <= i < Z.of_nat T)%Z (data tids) ->
  exists out,
    compose W C R indices (Some tids) = Ok out
    /\ shape out = [B; n; d] /\ wf out
    /\ forall b i j, b < B -> i < n -> j < d ->
         tget out [b; i; j] = composed_entry W C R indices tids r b i j.
Proof.
  intros HW HC HR Hi Hir Ht Htr.
  unfold compose, torch.embedding, torch.index_select0, torch.matmul.
  rewrite HW, HC, HR, Hi, Ht.
  change (numel [B]) with (B * 1). rewrite Nat.mul_1_r.
  rewrite (decide_True (P := Forall _ (data indices))) by done.
  rewrite (decide_True (P := length [B] <= 1)) by (simpl; lia).
  rewrite !(decide_True (P := Forall _ (data tids))) by done.
  unfold mbind, result_bind. simpl.
  rewrite !decide_True by done.
  rewrite mul__same_shape by done.
  eexists. split; [done|]. split; [done|]. split; [apply tinit_wf|].
  intros b i j Hb Hi' Hj.
  rewrite tget_tinit by (by apply in_bounds3).
  rewrite broadcast_index_in_bounds by (by apply in_bounds3).
  rewrite !tget_tinit by (by apply in_bounds3).
  unfold composed_entry. simpl. f_equal. f_equal.
  apply map_ext_in. intros k Hk. apply in_seq in Hk.
  by rewrite !tget_tinit by (apply in_bounds3; lia).
Qed.
End ComposeEntries.

(** ** Loading a state dict *)

Section Loading.
Context {F : Type} `{Scalar F} (env : environment F).
Import MultitaskPromptEmbedding.

Lemma load_from_state_dict_missing (sd : gmap string (tensor F)) key l (w : world F) :
  sd !! key = None -> load_from_state_dict sd key l w = (w, Ok Missing).
Proof. intros Hk. unfold load_from_state_dict. by rewrite Hk. Qed.

Lemma load_from_state_dict_copied (sd : gmap string (tensor F)) key l (w : world F) x p :
  sd !! key = Some x -> heap w !! l = Some p -> shape x = shape p ->
  load_from_state_dict sd key l w
  = (World (<[l := x]> (heap w)) (rng w) (log w), Ok Copied).
Proof.
  intros Hk Hl Hs. unfold load_from_state_dict, read, write, mbind, M_bind. rewrite Hk.
  rewrite (nth_lookup_Some _ _ _ _ Hl), decide_True by done.
  destruct x as [xs xd]. simpl in *. by subst xs.
Qed.

Lemma load_from_state_dict_mismatch (sd : gmap string (tensor F)) key l (w : world F) x p :
  sd !! key = Some x -> heap w !! l = Some p -> shape x <> shape p ->
  load_from_state_dict sd key l w = (w, Ok SizeMismatch).
Proof.
  intros Hk Hl Hs. unfold load_from_state_dict, read, write, mbind, M_bind. rewrite Hk.
  by rewrite (nth_lookup_Some _ _ _ _ Hl), decide_False by done.
Qed.

(** What [load_from_state_dict] finds for a key, given the parameter. *)
Definition classify (sd : gmap string (tensor F)) (key : string) (p : tensor F)
    : load_outcome :=
  match sd !! key with
  | None => Missing
  | Some x => if decide (shape x = shape p) then Copied else SizeMismatch
  end.

Lemma classify_shape sd key (p q : tensor F) :
  shape p = shape q -> classify sd key p = classify sd key q.
Proof. intros Hs. unfold classify. by rewrite Hs. Qed.

(** One parameter is left as it was or receives the data of its key; no
    tensor changes shape, and the other tensors, the generator and the log
    are left alone. *)
Lemma load_from_state_dict_run (sd : gmap string (tensor F)) key l (w : world F) :
  exists h',
    load_from_state_dict sd key l w
    = (World h' (rng w) (log w), Ok (classify sd key (deref w l)))
    /\ map shape h' = map shape (heap w)
    /\ (forall l', l' <> l -> h' !! l' = heap w !! l').
Proof.
  unfold load_from_state_dict, classify, deref, read, write, mbind, M_bind.
  destruct w as [h g lg]. simpl.
  destruct (sd !! key) as [x|] eqn:Hk; [|by exists h].
  destruct (decide (shape x = shape (nth l h (Tensor [0] [])))) as [Hs|Hs].
  - rewrite ?decide_True by done.
    eexists. simpl. split; [done|]. split; [|by intros; rewrite list_lookup_insert_ne].
    rewrite list_fmap_insert. simpl.
    destruct (decide (l < length h)) as [Hl|Hl].
    + apply list_insert_id. rewrite list_lookup_fmap.
      destruct (lookup_lt_is_Some_2 h l Hl) as [p Hp]. rewrite Hp. simpl.
      by rewrite (nth_lookup_Some _ _ _ _ Hp).
    + apply list_insert_ge. rewrite length_fmap. lia.
  - rewrite ?decide_False by done. by exists h.
Qed.

Lemma deref_shape (h h' : list (tensor F)) g g' lg lg' l :
  map shape h' = map shape h ->
  shape (deref (World h' g' lg') l) = shape (deref (World h g lg) l).
Proof.
  intros Hm. unfold deref. simpl.
  change [0] with (shape (Tensor (A := F) [0] [])).
  by rewrite <- !(map_nth shape), Hm.
Qed.

(** The parameters of the module with their keys, in the order
    [load_state_dict] visits them. *)
Definition module_keys (self : t) : list (string * loc) :=
  [("prefix_task_cols", prefix_task_cols self);
   ("prefix_task_rows", prefix_task_rows self);
   ("embedding.weight", embedding self)].

(** A strict load raises as soon as one key of the module is missing from
    the state dict or has another shape than its parameter. *)
Lemma load_state_dict_strict_fails (self : t) (sd : gmap string (tensor F))
    (w : world F) key l :
  (key, l) ∈ module_keys self ->
  classify sd key (deref w l) <> Copied ->
  (load_state_dict self sd true w).2 = Raise RuntimeError.
Proof.
  intros Hin Hne. unfold load_state_dict, emit, mbind, M_bind.
  destruct w as [h g lg]. simpl.
  destruct (load_from_state_dict_run sd "prefix_task_cols" (prefix_task_cols self)
              (World h g (lg ++ [EvLoadStateDict true]))) as (h1 & -> & Hs1 & _).
  simpl in *.
  destruct (load_from_state_dict_run sd "prefix_task_rows" (prefix_task_rows self)
              (World h1 g (lg ++ [EvLoadStateDict true]))) as (h2 & -> & Hs2 & _).
  simpl in *.
  destruct (load_from_state_dict_run sd "embedding.weight" (embedding self)
              (World h2 g (lg ++ [EvLoadStateDict true]))) as (h3 & -> & Hs3 & _).
  simpl in *.
  rewrite (classify_shape sd "prefix_task_cols" _
             (deref (World h g lg) (prefix_task_cols self))) by done.
  rewrite (classify_shape sd "prefix_task_rows" _
             (deref (World h g lg) (prefix_task_rows self)))
    by (by apply deref_shape).
  rewrite (classify_shape sd "embedding.weight" _
             (deref (World h g lg) (embedding self)))
    by (apply deref_shape; congruence).
  unfold module_keys in Hin.
  apply elem_of_cons in Hin as [Hin|Hin];
    [|apply elem_of_cons in Hin as [Hin|Hin];
      [|apply list_elem_of_singleton in Hin]];
    injection Hin as -> ->;
    destruct (classify sd _ (deref _ (prefix_task_cols self))),
             (classify sd _ (deref _ (prefix_task_rows self))),
             (classify sd _ (deref _ (embedding self))); done.
Qed.

(** A state dict with exactly the module's keys, each of the shape of its
    parameter, is copied into the three parameters. *)
Lemma load_state_dict_loads (self : t) (sd : gmap string (tensor F)) (strict : bool)
    (w : world F) (pe c r pw pc pr : tensor F) :
  prefix_task_cols self <> prefix_task_rows self ->
  prefix_task_cols self <> embedding self ->
  prefix_task_rows self <> embedding self ->
  heap w !! prefix_task_cols self = Some pc ->
  heap w !! prefix_task_rows self = Some pr ->
  heap w !! embedding self = Some pw ->
  sd !! "prefix_task_cols" = Some c ->
  sd !! "prefix_task_rows" = Some r ->
  sd !! "embedding.weight" = Some pe ->
  dom sd ⊆ ({["prefix_task_cols"; "prefix_task_rows"; "embedding.weight"]} : gset string) ->
  shape c = shape pc -> shape r = shape pr -> shape pe = shape pw ->
  load_state_dict self sd strict w
  = (World (<[embedding self := pe]>
              (<[prefix_task_rows self := r]>
                 (<[prefix_task_cols self := c]> (heap w))))
           (rng w) (log w ++ [EvLoadStateDict strict]), Ok tt).
Proof.
  intros Hcr Hce Hre Hlc Hlr Hle Hc Hr He Hdom Hsc Hsr Hse.
  unfold load_state_dict, emit, mbind, M_bind. simpl.
  rewrite (load_from_state_dict_copied sd _ _ _ c pc) by done. simpl.
  rewrite (load_from_state_dict_copied sd _ _ _ r pr)
    by (try done; simpl; by rewrite list_lookup_insert_ne).
  simpl.
  rewrite (load_from_state_dict_copied sd _ _ _ pe pw)
    by (try done; simpl; by rewrite !list_lookup_insert_ne).
  simpl.
  rewrite (bool_decide_eq_false_2 (¬ _)) by (intros Hn; by apply Hn).
  by destruct strict.
Qed.

(** A non-strict load of a state dict that holds the base table only. *)
Lemma load_state_dict_shared (self : t) (w : world F) (pe pw : tensor F) :
  heap w !! embedding self = Some pw ->
  shape pe = shape pw ->
  load_state_dict self (<["embedding.weight" := pe]> ∅) false w
  = (World (<[embedding self := pe]> (heap w)) (rng w)
           (log w ++ [EvLoadStateDict false]), Ok tt).
Proof.
  intros Hle Hse.
  unfold load_state_dict, emit, mbind, M_bind. simpl.
  rewrite load_from_state_dict_missing by done.
  rewrite load_from_state_dict_missing by done.
  rewrite (load_from_state_dict_copied _ _ _ _ pe pw) by (try done; apply lookup_insert_eq).
  done.
Qed.

(** A size mismatch on a key of the module is an error whether the load is
    strict or not. *)
Lemma load_state_dict_size_mismatch (self : t) (sd : gmap string (tensor F))
    (strict : bool) (w : world F) key l :
  (key, l) ∈ module_keys self ->
  classify sd key (deref w l) = SizeMismatch ->
  (load_state_dict self sd strict w).2 = Raise RuntimeError.
Proof.
  intros Hin Hmis. unfold load_state_dict, emit, mbind, M_bind.
  destruct w as [h g lg]. simpl.
  destruct (load_from_state_dict_run sd "prefix_task_cols" (prefix_task_cols self)
              (World h g (lg ++ [EvLoadStateDict strict]))) as (h1 & -> & Hs1 & _).
  simpl in *.
  destruct (load_from_state_dict_run sd "prefix_task_rows" (prefix_task_rows self)
              (World h1 g (lg ++ [EvLoadStateDict strict]))) as (h2 & -> & Hs2 & _).
  simpl in *.
  destruct (load_from_state_dict_run sd "embedding.weight" (embedding self)
              (World h2 g (lg ++ [EvLoadStateDict strict]))) as (h3 & -> & Hs3 & _).
  simpl in *.
  rewrite (classify_shape sd "prefix_task_cols" _
             (deref (World h g lg) (prefix_task_cols self))) by done.
  rewrite (classify_shape sd "prefix_task_rows" _
             (deref (World h g lg) (prefix_task_rows self)))
    by (by apply deref_shape).
  rewrite (classify_shape sd "embedding.weight" _
             (deref (World h g lg) (embedding self)))
    by (apply deref_shape; congruence).
  unfold module_keys in Hin.
  apply elem_of_cons in Hin as [Hin|Hin];
    [|apply elem_of_cons in Hin as [Hin|Hin];
      [|apply list_elem_of_singleton in Hin]];
    injection Hin as -> ->; rewrite Hmis;
    repeat match goal with
           | |- context [classify ?a ?b ?c] => destruct (classify a b c)
           end; done.
Qed.
End Loading.

(** ** Construction *)

Section Construction.
Context {F : Type} `{Scalar F} (env : environment F).
Import MultitaskPromptTuningConfig MultitaskPromptEmbedding.

(** The configuration selects mode [m]: its setting is the member or the
    member's string. *)
Definition has_mode (config : MultitaskPromptTuningConfig.t)
    (m : MultitaskPromptTuningInit) : Prop :=
  str_of (prompt_tuning_init config) = value m.

Definition total_virtual_tokens (config : MultitaskPromptTuningConfig.t) : nat :=
  MultitaskPromptTuningConfig.num_virtual_tokens config
  * MultitaskPromptTuningConfig.num_transformer_submodules config.

Definition base_size (config : MultitaskPromptTuningConfig.t) : list nat :=
  [total_virtual_tokens config; MultitaskPromptTuningConfig.token_dim config].

Definition cols_size (config : MultitaskPromptTuningConfig.t) : list nat :=
  [MultitaskPromptTuningConfig.num_tasks config; total_virtual_tokens config;
   MultitaskPromptTuningConfig.num_ranks config].

Definition rows_size (config : MultitaskPromptTuningConfig.t) : list nat :=
  [MultitaskPromptTuningConfig.num_tasks config;
   MultitaskPromptTuningConfig.num_ranks config;
   MultitaskPromptTuningConfig.token_dim config].

(** The three tensors every construction starts with: the table of the
    base class and the two freshly drawn factors. *)
Definition base_table (config : MultitaskPromptTuningConfig.t) (we : tensor F)
    : tensor F :=
  Tensor (base_size config)
    (map (base_policy env we) (seq 0 (numel (base_size config)))).

Definition fresh_cols (config : MultitaskPromptTuningConfig.t) (w : world F)
    : tensor F :=
  Tensor (cols_size config)
    (map (gauss env) (seq (rng w) (numel (cols_size config)))).

Definition fresh_rows (config : MultitaskPromptTuningConfig.t) (w : world F)
    : tensor F :=
  Tensor (rows_size config)
    (map (gauss env)
       (seq (rng w + numel (cols_size config)) (numel (rows_size config)))).

(** The module object a construction started in world [w] returns. *)
Definition new_self (config : MultitaskPromptTuningConfig.t) (w : world F)
    : MultitaskPromptEmbedding.t :=
  MultitaskPromptEmbedding.Build
    (length (heap w)) (length (heap w) + 1) (length (heap w) + 2)
    (MultitaskPromptTuningConfig.num_tasks config)
    (MultitaskPromptTuningConfig.num_ranks config)
    (MultitaskPromptTuningConfig.num_virtual_tokens config)
    (MultitaskPromptTuningConfig.num_transformer_submodules config)
    (MultitaskPromptTuningConfig.token_dim config).

(** The world once the parameters are allocated, whatever the mode. *)
Definition allocated (config : MultitaskPromptTuningConfig.t) (we : tensor F)
    (w : world F) : world F :=
  World (heap w ++ [base_table config we; fresh_cols config w; fresh_rows config w])
        (rng w + numel (cols_size config) + numel (rows_size config))
        (log w ++ [EvNormal (cols_size config); EvNormal (rows_size config)]).

Lemma bind_run {A B} (c : M F A) (f : A -> M F B) (w w' : world F) (a : A) :
  c w = (w', Ok a) -> (c ≫= f) w = f a w'.
Proof. intros Hc. unfold mbind, M_bind. by rewrite Hc. Qed.

Lemma bind_raise {A B} (c : M F A) (f : A -> M F B) (w w' : world F) (e : exn) :
  c w = (w', Raise e) -> (c ≫= f) w = (w', Raise e).
Proof. intros Hc. unfold mbind, M_bind. by rewrite Hc. Qed.

Lemma PromptEmbedding___init___run config we (w : world F) :
  PromptEmbedding___init__ env config we w
  = (World (heap w ++ [base_table config we]) (rng w) (log w), Ok (length (heap w))).
Proof. reflexivity. Qed.

Lemma torch_normal_run size (w : world F) :
  torch_normal env size w
  = (World (heap w) (rng w + numel size) (log w ++ [EvNormal size]),
     Ok (Tensor size (map (gauss env) (seq (rng w) (numel size))))).
Proof. reflexivity. Qed.

Lemma nn_Parameter_run x (w : world F) :
  nn_Parameter x w = (World (heap w ++ [x]) (rng w) (log w), Ok (length (heap w))).
Proof. reflexivity. Qed.

Lemma bind_assoc {A B C} (c : M F A) (f : A -> M F B) (g : B -> M F C) (w : world F) :
  ((c ≫= f) ≫= g) w = (c ≫= (fun a => f a ≫= g)) w.
Proof. unfold mbind, M_bind. by destruct (c w) as [w' [a|e]]. Qed.

(** One statement that returns: the rest runs in the world it leaves. *)
Tactic Notation "step" uconstr(lem) :=
  rewrite ?bind_assoc;
  rewrite (bind_run _ _ _ _ _ lem); cbv beta zeta; cbn [heap rng log fst snd].

(** The first five statements of the constructor, in any mode. *)
Ltac init_prefix config we w :=
  unfold __init__;
  step (PromptEmbedding___init___run config we w);
  step (torch_normal_run _ _); step (nn_Parameter_run _ _);
  step (torch_normal_run _ _); step (nn_Parameter_run _ _);
  rewrite !length_app; cbn [length];
  rewrite <- !(Nat.add_assoc (length (heap w))); cbn [Nat.add];
  rewrite <- !app_assoc; cbn [app];
  fold (total_virtual_tokens config);
  fold (cols_size config); fold (rows_size config);
  fold (fresh_cols config w); fold (fresh_rows config w);
  fold (new_self config w).

Lemma value_eqb (m m' : MultitaskPromptTuningInit) :
  String.eqb (value m) (value m') = true <-> m = m'.
Proof.
  split; [|intros ->; apply String.eqb_refl].
  destruct m, m'; (done || discriminate).
Qed.

Lemma init_eq_true config m :
  has_mode config m -> init_eq (prompt_tuning_init config) m = true.
Proof. intros Hmode. unfold init_eq. rewrite Hmode. by apply value_eqb. Qed.

Lemma init_eq_false config m m' :
  has_mode config m -> m <> m' -> init_eq (prompt_tuning_init config) m' = false.
Proof.
  intros Hmode Hne. unfold init_eq. rewrite Hmode.
  apply not_true_is_false. intros Hv. by apply Hne, value_eqb.
Qed.

(** Decides the tests on the mode once the mode is known. *)
Ltac mode_tests Hmode :=
  unfold init_in, format_init; cbn [existsb];
  rewrite ?(init_eq_true _ _ Hmode);
  repeat (rewrite (init_eq_false _ _ _ Hmode) by done);
  cbn [orb]; cbv beta iota.

Lemma missing_path_raises (config : MultitaskPromptTuningConfig.t) (we : tensor F)
    (w : world F) (m : MultitaskPromptTuningInit) :
  m = AVERAGE_SOURCE_TASKS \/ m = EXACT_SOURCE_TASK \/ m = ONLY_SOURCE_SHARED ->
  has_mode config m ->
  prompt_tuning_init_state_dict_path config = None ->
  __init__ env config we w
  = (allocated config we w,
     Raise (ValueError
              ("prompt_tuning_init_state_dict_path needs to be specified with "
               ++ value m ++ " init method")%string)).
Proof.
  intros Hm Hmode Hpath.
  init_prefix config we w.
  assert (Hin : init_in (prompt_tuning_init config)
                  [AVERAGE_SOURCE_TASKS; EXACT_SOURCE_TASK; ONLY_SOURCE_SHARED] = true).
  { destruct Hm as [-> | [-> | ->]]; by mode_tests Hmode. }
  rewrite Hin, Hpath. unfold format_init. rewrite Hmode.
  by apply bind_raise.
Qed.

(** The world after a construction that read the checkpoint at [path]
    and ended with the parameters [pe], [c] and [r]. *)
Definition loaded (config : MultitaskPromptTuningConfig.t) (w : world F)
    (path : string) (strict : bool) (pe c r : tensor F) : world F :=
  World (heap w ++ [pe; c; r])
        (rng w + numel (cols_size config) + numel (rows_size config))
        (log w ++ [EvNormal (cols_size config); EvNormal (rows_size config);
                   EvTorchLoad path; EvLoadStateDict strict]).

Lemma torch_load_run path (w : world F) ckpt :
  files env path = Ok ckpt ->
  torch_load env path w
  = (World (heap w) (rng w) (log w ++ [EvTorchLoad path]), Ok ckpt).
Proof. intros Hf. unfold torch_load, emit, lift, mbind, M_bind. by rewrite Hf. Qed.

Lemma getitem_run {V} (d : gmap string V) key v (w : world F) :
  d !! key = Some v -> getitem d key w = (w, Ok v).
Proof. intros Hk. unfold getitem. by rewrite Hk. Qed.

Lemma lift_run {A} (r : result A) (w : world F) : lift r w = (w, r).
Proof. reflexivity. Qed.

Lemma mret_run {A} (a : A) (w : world F) : (mret a : M F A) w = (w, Ok a).
Proof. reflexivity. Qed.

(** The strict load of the constructor, once the three tensors to load are
    known and have the shapes of the parameters. *)
Lemma init_strict_load config we (w : world F) lg (pe c r : tensor F) :
  shape pe = base_size config ->
  shape c = cols_size config ->
  shape r = rows_size config ->
  load_state_dict (new_self config w)
    (<["embedding.weight" := pe]>
       (<["prefix_task_cols" := c]> (<["prefix_task_rows" := r]> ∅))) true
    (World (heap w ++ [base_table config we; fresh_cols config w; fresh_rows config w])
           (rng w + numel (cols_size config) + numel (rows_size config)) lg)
  = (World (heap w ++ [pe; c; r])
           (rng w + numel (cols_size config) + numel (rows_size config))
           (lg ++ [EvLoadStateDict true]), Ok tt).
Proof.
  intros Hpe Hc Hr.
  rewrite (load_state_dict_loads _ _ _ _ pe c r
             (base_table config we) (fresh_cols config w) (fresh_rows config w));
    cbn [new_self embedding prefix_task_cols prefix_task_rows heap rng log];
    try done; try lia.
  - f_equal. f_equal.
    rewrite (insert_app_r (heap w) _ 1), (insert_app_r (heap w) _ 2).
    rewrite <- (Nat.add_0_r (length (heap w))) at 1.
    by rewrite (insert_app_r (heap w) _ 0).
  - by rewrite lookup_app_r, Nat.add_sub' by lia.
  - by rewrite lookup_app_r, Nat.add_sub' by lia.
  - by rewrite list_lookup_middle.
Qed.

Lemma init_exact_run config we (w : world F) path ckpt (pe C R c0 r0 : tensor F) :
  has_mode config EXACT_SOURCE_TASK ->
  prompt_tuning_init_state_dict_path config = Some path ->
  files env path = Ok ckpt ->
  ckpt !! "prefix_task_cols" = Some C ->
  ckpt !! "prefix_task_rows" = Some R ->
  ckpt !! "prompt_embeddings" = Some pe ->
  torch.getitem0 (prompt_tuning_init_task config) C = Ok c0 ->
  torch.getitem0 (prompt_tuning_init_task config) R = Ok r0 ->
  shape pe = base_size config ->
  1 :: shape c0 = cols_size config ->
  1 :: shape r0 = rows_size config ->
  __init__ env config we w
  = (loaded config w path true pe (torch.unsqueeze0 c0) (torch.unsqueeze0 r0),
     Ok (new_self config w)).
Proof.
  intros Hmode Hpath Hf HC HR Hpe Hc0 Hr0 Hspe Hsc Hsr.
  init_prefix config we w. mode_tests Hmode. rewrite Hpath.
  step (torch_load_run _ _ _ Hf).
  step (getitem_run _ _ _ _ HC). step (getitem_run _ _ _ _ HR).
  rewrite Hc0, Hr0.
  step (lift_run _ _). step (lift_run _ _). step (mret_run _ _).
  step (getitem_run _ _ _ _ Hpe).
  step (init_strict_load _ _ _ _ _ (torch.unsqueeze0 c0) (torch.unsqueeze0 r0)
          Hspe Hsc Hsr).
  unfold loaded. by rewrite <- !app_assoc.
Qed.

Lemma init_average_run config we (w : world F) path ckpt (pe C R : tensor F) :
  has_mode config AVERAGE_SOURCE_TASKS ->
  prompt_tuning_init_state_dict_path config = Some path ->
  files env path = Ok ckpt ->
  ckpt !! "prefix_task_cols" = Some C ->
  ckpt !! "prefix_task_rows" = Some R ->
  ckpt !! "prompt_embeddings" = Some pe ->
  shape pe = base_size config ->
  shape (torch.mean0_keepdim C) = cols_size config ->
  shape (torch.mean0_keepdim R) = rows_size config ->
  __init__ env config we w
  = (loaded config w path true pe (torch.mean0_keepdim C) (torch.mean0_keepdim R),
     Ok (new_self config w)).
Proof.
  intros Hmode Hpath Hf HC HR Hpe Hspe Hsc Hsr.
  init_prefix config we w. mode_tests Hmode. rewrite Hpath.
  step (torch_load_run _ _ _ Hf).
  step (getitem_run _ _ _ _ HC). step (getitem_run _ _ _ _ HR).
  step (mret_run _ _).
  step (getitem_run _ _ _ _ Hpe).
  step (init_strict_load _ _ _ _ _ _ _ Hspe Hsc Hsr).
  unfold loaded. by rewrite <- !app_assoc.
Qed.

Lemma init_shared_load config we (w : world F) lg (pe : tensor F) :
  shape pe = base_size config ->
  load_state_dict (new_self config w) (<["embedding.weight" := pe]> ∅) false
    (World (heap w ++ [base_table config we; fresh_cols config w; fresh_rows config w])
           (rng w + numel (cols_size config) + numel (rows_size config)) lg)
  = (World (heap w ++ [pe; fresh_cols config w; fresh_rows config w])
           (rng w + numel (cols_size config) + numel (rows_size config))
           (lg ++ [EvLoadStateDict false]), Ok tt).
Proof.
  intros Hpe.
  rewrite (load_state_dict_shared _ _ pe (base_table config we));
    cbn [new_self embedding heap rng log]; try done.
  - f_equal. f_equal.
    rewrite <- (Nat.add_0_r (length (heap w))) at 1.
    by rewrite (insert_app_r (heap w) _ 0).
  - by rewrite list_lookup_middle.
Qed.

Lemma init_shared_run config we (w : world F) path ckpt (pe : tensor F) :
  has_mode config ONLY_SOURCE_SHARED ->
  prompt_tuning_init_state_dict_path config = Some path ->
  files env path = Ok ckpt ->
  ckpt !! "prompt_embeddings" = Some pe ->
  shape pe = base_size config ->
  __init__ env config we w
  = (loaded config w path false pe (fresh_cols config w) (fresh_rows config w),
     Ok (new_self config w)).
Proof.
  intros Hmode Hpath Hf Hpe Hspe.
  init_prefix config we w. mode_tests Hmode. rewrite Hpath.
  step (torch_load_run _ _ _ Hf).
  step (getitem_run _ _ _ _ Hpe).
  step (init_shared_load _ _ _ _ _ Hspe).
  unfold loaded. by rewrite <- !app_assoc.
Qed.

(** The world in which the checkpoint has been read and nothing loaded. *)
Definition checkpoint_read (config : MultitaskPromptTuningConfig.t) (we : tensor F)
    (w : world F) (path : string) : world F :=
  World (heap w ++ [base_table config we; fresh_cols config w; fresh_rows config w])
        (rng w + numel (cols_size config) + numel (rows_size config))
        (log w ++ [EvNormal (cols_size config); EvNormal (rows_size config);
                   EvTorchLoad path]).

Lemma init_exact_cols_raise config we (w : world F) path ckpt (C R : tensor F) e :
  has_mode config EXACT_SOURCE_TASK ->
  prompt_tuning_init_state_dict_path config = Some path ->
  files env path = Ok ckpt ->
  ckpt !! "prefix_task_cols" = Some C ->
  ckpt !! "prefix_task_rows" = Some R ->
  torch.getitem0 (prompt_tuning_init_task config) C = Raise e ->
  __init__ env config we w = (checkpoint_read config we w path, Raise e).
Proof.
  intros Hmode Hpath Hf HC HR Hc0.
  init_prefix config we w. mode_tests Hmode. rewrite Hpath.
  step (torch_load_run _ _ _ Hf).
  step (getitem_run _ _ _ _ HC). step (getitem_run _ _ _ _ HR).
  rewrite Hc0. rewrite ?bind_assoc.
  rewrite (bind_raise _ _ _ _ _ (lift_run _ _)).
  unfold checkpoint_read. by rewrite <- !app_assoc.
Qed.

(** *** Entries of the loaded factors *)

Lemma select_entry (t : tensor F) n sh k idx :
  shape t = n :: sh -> in_bounds sh idx ->
  tget (torch.unsqueeze0 (tinit sh (fun idx => tget t (k :: idx)))) (0 :: idx)
  = tget t (k :: idx).
Proof.
  intros Hs Hb.
  change (tget (torch.unsqueeze0 (tinit sh (fun idx => tget t (k :: idx)))) (0 :: idx))
    with (tget (tinit sh (fun idx => tget t (k :: idx))) idx).
  by rewrite tget_tinit.
Qed.

Lemma mean_entry (t : tensor F) n sh idx :
  shape t = n :: sh -> in_bounds sh idx ->
  tget (torch.mean0_keepdim t) (0 :: idx)
  = s_div (s_sum (map (fun s => tget t (s :: idx)) (seq 0 n))) (s_of_nat n).
Proof.
  intros Hs Hb. unfold torch.mean0_keepdim. rewrite Hs.
  rewrite tget_tinit; [done|]. constructor; [lia|done].
Qed.

Lemma mean_shape (t : tensor F) n sh :
  shape t = n :: sh -> shape (torch.mean0_keepdim t) = 1 :: sh.
Proof. intros Hs. unfold torch.mean0_keepdim. by rewrite Hs. Qed.

Lemma in_bounds2 a b x y : x < a -> y < b -> in_bounds [a; b] [x; y].
Proof. intros. repeat constructor; done. Qed.

(** What the three parameters of [self] hold in world [w]. *)
Definition parameters (w : world F) (self : MultitaskPromptEmbedding.t)
    (base_vectors task_cols task_rows : tensor F) : Prop :=
  heap w !! embedding self = Some base_vectors
  /\ heap w !! prefix_task_cols self = Some task_cols
  /\ heap w !! prefix_task_rows self = Some task_rows.

Lemma loaded_parameters config (w : world F) path strict pe c r :
  parameters (loaded config w path strict pe c r) (new_self config w) pe c r.
Proof.
  unfold parameters, loaded. cbn [new_self embedding prefix_task_cols prefix_task_rows heap].
  split; [by rewrite list_lookup_middle|].
  split; by rewrite lookup_app_r, Nat.add_sub' by lia.
Qed.

(** *** Failures of the averaging construction *)

Lemma bind_raise_snd {A B} (c : M F A) (f : A -> M F B) (w : world F) (e : exn) :
  (c w).2 = Raise e -> ((c ≫= f) w).2 = Raise e.
Proof.
  unfold mbind, M_bind. destruct (c w) as [w' [a|e']]; simpl; congruence.
Qed.

Lemma getitem_raise {V} (d : gmap string V) key (w : world F) :
  d !! key = None -> getitem d key w = (w, Raise (KeyError key)).
Proof. intros Hk. unfold getitem. by rewrite Hk. Qed.

Lemma init_average_mismatch config we (w : world F) path ckpt (pe C R : tensor F) :
  has_mode config AVERAGE_SOURCE_TASKS ->
  prompt_tuning_init_state_dict_path config = Some path ->
  files env path = Ok ckpt ->
  ckpt !! "prefix_task_cols" = Some C ->
  ckpt !! "prefix_task_rows" = Some R ->
  ckpt !! "prompt_embeddings" = Some pe ->
  shape pe <> base_size config
  \/ shape (torch.mean0_keepdim C) <> cols_size config
  \/ shape (torch.mean0_keepdim R) <> rows_size config ->
  (__init__ env config we w).2 = Raise RuntimeError.
Proof.
  intros Hmode Hpath Hf HC HR Hpe Hbad.
  init_prefix config we w. mode_tests Hmode. rewrite Hpath.
  step (torch_load_run _ _ _ Hf).
  step (getitem_run _ _ _ _ HC). step (getitem_run _ _ _ _ HR).
  step (mret_run _ _).
  step (getitem_run _ _ _ _ Hpe).
  apply bind_raise_snd.
  destruct Hbad as [Hbad | [Hbad | Hbad]].
  - apply (load_state_dict_strict_fails _ _ _ "embedding.weight" (length (heap w)));
      [set_solver|].
    unfold classify, deref. cbn [heap]. rewrite lookup_insert_eq, nth_middle.
    by rewrite decide_False.
  - apply (load_state_dict_strict_fails _ _ _ "prefix_task_cols" (length (heap w) + 1));
      [set_solver|].
    unfold classify, deref. cbn [heap].
    rewrite lookup_insert_ne, lookup_insert_eq by done.
    rewrite app_nth2_plus. cbn [nth].
    by rewrite decide_False.
  - apply (load_state_dict_strict_fails _ _ _ "prefix_task_rows" (length (heap w) + 2));
      [set_solver|].
    unfold classify, deref. cbn [heap].
    rewrite !lookup_insert_ne, lookup_insert_eq by done.
    rewrite app_nth2_plus. cbn [nth].
    by rewrite decide_False.
Qed.

Lemma init_average_missing config we (w : world F) path ckpt key :
  has_mode config AVERAGE_SOURCE_TASKS ->
  prompt_tuning_init_state_dict_path config = Some path ->
  files env path = Ok ckpt ->
  key ∈ ["prefix_task_cols"; "prefix_task_rows"; "prompt_embeddings"] ->
  ckpt !! key = None ->
  exists key', ckpt !! key' = None
               /\ (__init__ env config we w).2 = Raise (KeyError key').
Proof.
  intros Hmode Hpath Hf Hkey Hnone.
  destruct (ckpt !! "prefix_task_cols") as [C|] eqn:HC; cycle 1.
  { exists "prefix_task_cols". split; [done|].
    init_prefix config we w. mode_tests Hmode. rewrite Hpath.
    step (torch_load_run _ _ _ Hf). rewrite ?bind_assoc.
    by rewrite (bind_raise _ _ _ _ _ (getitem_raise _ _ _ HC)). }
  destruct (ckpt !! "prefix_task_rows") as [R|] eqn:HR; cycle 1.
  { exists "prefix_task_rows". split; [done|].
    init_prefix config we w. mode_tests Hmode. rewrite Hpath.
    step (torch_load_run _ _ _ Hf). step (getitem_run _ _ _ _ HC). rewrite ?bind_assoc.
    by rewrite (bind_raise _ _ _ _ _ (getitem_raise _ _ _ HR)). }
  destruct (ckpt !! "prompt_embeddings") as [pe|] eqn:Hpe; cycle 1.
  { exists "prompt_embeddings". split; [done|].
    init_prefix config we w. mode_tests Hmode. rewrite Hpath.
    step (torch_load_run _ _ _ Hf).
    step (getitem_run _ _ _ _ HC). step (getitem_run _ _ _ _ HR).
    step (mret_run _ _). rewrite ?bind_assoc.
    by rewrite (bind_raise _ _ _ _ _ (getitem_raise _ _ _ Hpe)). }
  repeat (apply elem_of_cons in Hkey as [-> | Hkey]; [congruence|]).
  by apply elem_of_nil in Hkey.
Qed.

(** *** The exact-source and averaging constructions, entry by entry *)

Lemma unsqueeze0_tinit_wf sh (f : list nat -> F) : wf (torch.unsqueeze0 (tinit sh f)).
Proof.
  unfold wf, torch.unsqueeze0, tinit. cbn [shape data numel fold_right].
  rewrite length_map, length_seq. fold (numel sh). lia.
Qed.

Lemma mean0_keepdim_wf (t : tensor F) : wf (torch.mean0_keepdim t).
Proof. unfold torch.mean0_keepdim. destruct (shape t); apply tinit_wf. Qed.

Lemma init_exact_entries config we (w : world F) path ckpt (pe C R : tensor F)
    (n : nat) (k : Z) :
  has_mode config EXACT_SOURCE_TASK ->
  prompt_tuning_init_state_dict_path config = Some path ->
  files env path = Ok ckpt ->
  ckpt !! "prefix_task_cols" = Some C ->
  ckpt !! "prefix_task_rows" = Some R ->
  ckpt !! "prompt_embeddings" = Some pe ->
  prompt_tuning_init_task config = Some k -> (0 <= k < Z.of_nat n)%Z ->
  MultitaskPromptTuningConfig.num_tasks config = 1 ->
  shape C = [n; total_virtual_tokens config; MultitaskPromptTuningConfig.num_ranks config] ->
  shape R = [n; MultitaskPromptTuningConfig.num_ranks config;
             MultitaskPromptTuningConfig.token_dim config] ->
  shape pe = base_size config ->
  exists c r,
    __init__ env config we w
    = (loaded config w path true pe c r, Ok (new_self config w))
    /\ shape c = [1; total_virtual_tokens config;
                  MultitaskPromptTuningConfig.num_ranks config]
    /\ shape r = [1; MultitaskPromptTuningConfig.num_ranks config;
                  MultitaskPromptTuningConfig.token_dim config]
    /\ wf c /\ wf r
    /\ (forall i j, i < total_virtual_tokens config ->
                    j < MultitaskPromptTuningConfig.num_ranks config ->
                    tget c [0; i; j] = tget C [Z.to_nat k; i; j])
    /\ (forall i j, i < MultitaskPromptTuningConfig.num_ranks config ->
                    j < MultitaskPromptTuningConfig.token_dim config ->
                    tget r [0; i; j] = tget R [Z.to_nat k; i; j]).
Proof.
  intros Hmode Hpath Hf HC HR Hpe Hk Hrange Hone HsC HsR Hspe.
  eexists _, _. split.
  { eapply init_exact_run; try done.
    - rewrite Hk. by eapply getitem0_nonneg.
    - rewrite Hk. by eapply getitem0_nonneg.
    - unfold cols_size. by rewrite Hone.
    - unfold rows_size. by rewrite Hone. }
  split; [done|]. split; [done|].
  split; [apply unsqueeze0_tinit_wf|]. split; [apply unsqueeze0_tinit_wf|].
  split; intros i j Hi Hj.
  - by rewrite (select_entry C n _ _ _ HsC) by (by apply in_bounds2).
  - by rewrite (select_entry R n _ _ _ HsR) by (by apply in_bounds2).
Qed.

Lemma init_average_entries config we (w : world F) path ckpt (pe C R : tensor F)
    (n : nat) :
  has_mode config AVERAGE_SOURCE_TASKS ->
  prompt_tuning_init_state_dict_path config = Some path ->
  files env path = Ok ckpt ->
  ckpt !! "prefix_task_cols" = Some C ->
  ckpt !! "prefix_task_rows" = Some R ->
  ckpt !! "prompt_embeddings" = Some pe ->
  MultitaskPromptTuningConfig.num_tasks config = 1 ->
  shape C = [n; total_virtual_tokens config; MultitaskPromptTuningConfig.num_ranks config] ->
  shape R = [n; MultitaskPromptTuningConfig.num_ranks config;
             MultitaskPromptTuningConfig.token_dim config] ->
  shape pe = base_size config ->
  exists c r,
    __init__ env config we w
    = (loaded config w path true pe c r, Ok (new_self config w))
    /\ shape c = [1; total_virtual_tokens config;
                  MultitaskPromptTuningConfig.num_ranks config]
    /\ shape r = [1; MultitaskPromptTuningConfig.num_ranks config;
                  MultitaskPromptTuningConfig.token_dim config]
    /\ wf c /\ wf r
    /\ (forall i j, i < total_virtual_tokens config ->
                    j < MultitaskPromptTuningConfig.num_ranks config ->
                    tget c [0; i; j]
                    = s_div (s_sum (map (fun s => tget C [s; i; j]) (seq 0 n)))
                            (s_of_nat n))
    /\ (forall i j, i < MultitaskPromptTuningConfig.num_ranks config ->
                    j < MultitaskPromptTuningConfig.token_dim config ->
                    tget r [0; i; j]
                    = s_div (s_sum (map (fun s => tget R [s; i; j]) (seq 0 n)))
                            (s_of_nat n)).
Proof.
  intros Hmode Hpath Hf HC HR Hpe Hone HsC HsR Hspe.
  exists (torch.mean0_keepdim C), (torch.mean0_keepdim R). split.
  { eapply init_average_run; try done.
    - rewrite (mean_shape C n _ HsC). unfold cols_size. by rewrite Hone.
    - rewrite (mean_shape R n _ HsR). unfold rows_size. by rewrite Hone. }
  split; [by apply (mean_shape C n)|]. split; [by apply (mean_shape R n)|].
  split; [apply mean0_keepdim_wf|]. split; [apply mean0_keepdim_wf|].
  split; intros i j Hi Hj.
  - by rewrite (mean_entry C n _ _ HsC) by (by apply in_bounds2).
  - by rewrite (mean_entry R n _ _ HsR) by (by apply in_bounds2).
Qed.

(** *** Loading a table's own parameters back *)

Lemma init_exact_round_trip config we (w : world F) path ckpt (W C R : tensor F) :
  has_mode config EXACT_SOURCE_TASK ->
  prompt_tuning_init_state_dict_path config = Some path ->
  files env path = Ok ckpt ->
  ckpt !! "prefix_task_cols" = Some C ->
  ckpt !! "prefix_task_rows" = Some R ->
  ckpt !! "prompt_embeddings" = Some W ->
  prompt_tuning_init_task config = Some 0%Z ->
  MultitaskPromptTuningConfig.num_tasks config = 1 ->
  wf C -> wf R ->
  shape W = base_size config ->
  shape C = cols_size config ->
  shape R = rows_size config ->
  __init__ env config we w = (loaded config w path true W C R, Ok (new_self config w)).
Proof.
  intros Hmode Hpath Hf HC HR HW Hk Hone HwC HwR HsW HsC HsR.
  assert (HsC' : shape C = 1 :: [total_virtual_tokens config;
                                 MultitaskPromptTuningConfig.num_ranks config])
    by (rewrite HsC; unfold cols_size; by rewrite Hone).
  assert (HsR' : shape R = 1 :: [MultitaskPromptTuningConfig.num_ranks config;
                                 MultitaskPromptTuningConfig.token_dim config])
    by (rewrite HsR; unfold rows_size; by rewrite Hone).
  rewrite <- (unsqueeze0_select_first C _ HwC HsC') at 1.
  rewrite <- (unsqueeze0_select_first R _ HwR HsR') at 1.
  eapply init_exact_run; try done.
  - rewrite Hk. by apply (getitem0_nonneg C 1).
  - rewrite Hk. by apply (getitem0_nonneg R 1).
  - unfold cols_size. by rewrite Hone.
  - unfold rows_size. by rewrite Hone.
Qed.

(** *** A source task index outside the checkpoint *)

Lemma init_exact_index_error config we (w : world F) path ckpt (C R : tensor F)
    (n : nat) sh (k : Z) :
  has_mode config EXACT_SOURCE_TASK ->
  prompt_tuning_init_state_dict_path config = Some path ->
  files env path = Ok ckpt ->
  ckpt !! "prefix_task_cols" = Some C ->
  ckpt !! "prefix_task_rows" = Some R ->
  prompt_tuning_init_task config = Some k ->
  shape C = n :: sh ->
  (k < - Z.of_nat n \/ Z.of_nat n <= k)%Z ->
  __init__ env config we w = (checkpoint_read config we w path, Raise IndexError).
Proof.
  intros Hmode Hpath Hf HC HR Hk HsC Hout.
  eapply init_exact_cols_raise; try done.
  rewrite Hk. by eapply getitem0_out_of_range.
Qed.

(** *** The modes without a source, and a checkpoint that cannot be read *)

Lemma init_no_source_run config we (w : world F) :
  init_in (prompt_tuning_init config)
    [AVERAGE_SOURCE_TASKS; EXACT_SOURCE_TASK; ONLY_SOURCE_SHARED] = false ->
  __init__ env config we w = (allocated config we w, Ok (new_self config w)).
Proof.
  intros Hin. init_prefix config we w.
  rewrite Hin. unfold init_in in *. cbn [existsb] in *.
  apply orb_false_elim in Hin as [Ha Hin].
  apply orb_false_elim in Hin as [He Hin].
  apply orb_false_elim in Hin as [Ho _].
  rewrite Ha, He, Ho. reflexivity.
Qed.

Lemma torch_load_raise path (w : world F) e :
  files env path = Raise e ->
  torch_load env path w
  = (World (heap w) (rng w) (log w ++ [EvTorchLoad path]), Raise e).
Proof. intros Hf. unfold torch_load, emit, lift, mbind, M_bind. by rewrite Hf. Qed.

Lemma init_load_error config we (w : world F) m path e :
  m = AVERAGE_SOURCE_TASKS \/ m = EXACT_SOURCE_TASK \/ m = ONLY_SOURCE_SHARED ->
  has_mode config m ->
  prompt_tuning_init_state_dict_path config = Some path ->
  files env path = Raise e ->
  __init__ env config we w = (checkpoint_read config we w path, Raise e).
Proof.
  intros Hm Hmode Hpath Hf. init_prefix config we w.
  assert (Hin : init_in (prompt_tuning_init config)
                  [AVERAGE_SOURCE_TASKS; EXACT_SOURCE_TASK; ONLY_SOURCE_SHARED] = true).
  { destruct Hm as [-> | [-> | ->]]; by mode_tests Hmode. }
  rewrite Hin, Hpath.
  rewrite (bind_raise _ _ _ _ _ (torch_load_raise _ _ _ Hf)). cbn [heap rng log].
  unfold checkpoint_read. by rewrite <- !app_assoc.
Qed.

(** *** Failures of the exact-source and shared-only constructions *)

Lemma init_exact_mismatch config we (w : world F) path ckpt (pe C R c0 r0 : tensor F) :
  has_mode config EXACT_SOURCE_TASK ->
  prompt_tuning_init_state_dict_path config = Some path ->
  files env path = Ok ckpt ->
  ckpt !! "prefix_task_cols" = Some C ->
  ckpt !! "prefix_task_rows" = Some R ->
  ckpt !! "prompt_embeddings" = Some pe ->
  torch.getitem0 (prompt_tuning_init_task config) C = Ok c0 ->
  torch.getitem0 (prompt_tuning_init_task config) R = Ok r0 ->
  shape pe <> base_size config
  \/ 1 :: shape c0 <> cols_size config
  \/ 1 :: shape r0 <> rows_size config ->
  (__init__ env config we w).2 = Raise RuntimeError.
Proof.
  intros Hmode Hpath Hf HC HR Hpe Hc0 Hr0 Hbad.
  init_prefix config we w. mode_tests Hmode. rewrite Hpath.
  step (torch_load_run _ _ _ Hf).
  step (getitem_run _ _ _ _ HC). step (getitem_run _ _ _ _ HR).
  rewrite Hc0, Hr0.
  step (lift_run _ _). step (lift_run _ _). step (mret_run _ _).
  step (getitem_run _ _ _ _ Hpe).
  apply bind_raise_snd.
  destruct Hbad as [Hbad | [Hbad | Hbad]].
  - apply (load_state_dict_strict_fails _ _ _ "embedding.weight" (length (heap w)));
      [set_solver|].
    unfold classify, deref. cbn [heap]. rewrite lookup_insert_eq, nth_middle.
    by rewrite decide_False.
  - apply (load_state_dict_strict_fails _ _ _ "prefix_task_cols" (length (heap w) + 1));
      [set_solver|].
    unfold classify, deref. cbn [heap].
    rewrite lookup_insert_ne, lookup_insert_eq by done.
    rewrite app_nth2_plus. cbn [nth].
    by rewrite decide_False.
  - apply (load_state_dict_strict_fails _ _ _ "prefix_task_rows" (length (heap w) + 2));
      [set_solver|].
    unfold classify, deref. cbn [heap].
    rewrite !lookup_insert_ne, lookup_insert_eq by done.
    rewrite app_nth2_plus. cbn [nth].
    by rewrite decide_False.
Qed.

Lemma init_exact_missing config we (w : world F) path ckpt key :
  has_mode config EXACT_SOURCE_TASK ->
  prompt_tuning_init_state_dict_path config = Some path ->
  files env path = Ok ckpt ->
  key ∈ ["prefix_task_cols"; "prefix_task_rows"] ->
  ckpt !! key = None ->
  exists key', ckpt !! key' = None
               /\ __init__ env config we w
                  = (checkpoint_read config we w path, Raise (KeyError key')).
Proof.
  intros Hmode Hpath Hf Hkey Hnone.
  destruct (ckpt !! "prefix_task_cols") as [C|] eqn:HC; cycle 1.
  { exists "prefix_task_cols". split; [done|].
    init_prefix config we w. mode_tests Hmode. rewrite Hpath.
    step (torch_load_run _ _ _ Hf). rewrite ?bind_assoc.
    rewrite (bind_raise _ _ _ _ _ (getitem_raise _ _ _ HC)).
    unfold checkpoint_read. by rewrite <- !app_assoc. }
  destruct (ckpt !! "prefix_task_rows") as [R|] eqn:HR; cycle 1.
  { exists "prefix_task_rows". split; [done|].
    init_prefix config we w. mode_tests Hmode. rewrite Hpath.
    step (torch_load_run _ _ _ Hf). step (getitem_run _ _ _ _ HC). rewrite ?bind_assoc.
    rewrite (bind_raise _ _ _ _ _ (getitem_raise _ _ _ HR)).
    unfold checkpoint_read. by rewrite <- !app_assoc. }
  repeat (apply elem_of_cons in Hkey as [-> | Hkey]; [congruence|]).
  by apply elem_of_nil in Hkey.
Qed.

Lemma init_shared_missing config we (w : world F) path ckpt :
  has_mode config ONLY_SOURCE_SHARED ->
  prompt_tuning_init_state_dict_path config = Some path ->
  files env path = Ok ckpt ->
  ckpt !! "prompt_embeddings" = None ->
  __init__ env config we w
  = (checkpoint_read config we w path, Raise (KeyError "prompt_embeddings")).
Proof.
  intros Hmode Hpath Hf Hpe.
  init_prefix config we w. mode_tests Hmode. rewrite Hpath.
  step (torch_load_run _ _ _ Hf). rewrite ?bind_assoc.
  rewrite (bind_raise _ _ _ _ _ (getitem_raise _ _ _ Hpe)).
  unfold checkpoint_read. by rewrite <- !app_assoc.
Qed.

Lemma init_shared_mismatch config we (w : world F) path ckpt (pe : tensor F) :
  has_mode config ONLY_SOURCE_SHARED ->
  prompt_tuning_init_state_dict_path config = Some path ->
  files env path = Ok ckpt ->
  ckpt !! "prompt_embeddings" = Some pe ->
  shape pe <> base_size config ->
  (__init__ env config we w).2 = Raise RuntimeError.
Proof.
  intros Hmode Hpath Hf Hpe Hbad.
  init_prefix config we w. mode_tests Hmode. rewrite Hpath.
  step (torch_load_run _ _ _ Hf).
  step (getitem_run _ _ _ _ Hpe).
  apply bind_raise_snd.
  apply (load_state_dict_size_mismatch _ _ _ _ "embedding.weight" (length (heap w)));
    [set_solver|].
  unfold classify, deref. cbn [heap]. rewrite lookup_insert_eq, nth_middle.
  by rewrite decide_False.
Qed.

(** *** What every construction leaves behind *)

(** A computation that leaves the generator alone, changes no tensor's
    shape, touches no tensor below [n0] and only appends to the log. *)
Definition keeps (n0 : nat) {A} (c : M F A) : Prop :=
  forall w w' r, c w = (w', r) ->
    rng w' = rng w
    /\ map shape (heap w') = map shape (heap w)
    /\ (forall l, l < n0 -> heap w' !! l = heap w !! l)
    /\ exists evs, log w' = log w ++ evs.

Lemma keeps_same n0 {A} (c : M F A) :
  (forall w, exists r, c w = (w, r)) -> keeps n0 c.
Proof.
  intros Hc w w' r Hrun. destruct (Hc w) as [r' Hr]. rewrite Hr in Hrun.
  injection Hrun as <- _. repeat split; try done. exists []. by rewrite app_nil_r.
Qed.

Lemma keeps_ret n0 {A} (a : A) : keeps n0 (mret a : M F A).
Proof. apply keeps_same. intros w. by eexists. Qed.

Lemma keeps_raise n0 {A} e : keeps n0 (raise e : M F A).
Proof. apply keeps_same. intros w. by eexists. Qed.

Lemma keeps_lift n0 {A} (r : result A) : keeps n0 (lift r : M F A).
Proof. apply keeps_same. intros w. by eexists. Qed.

Lemma keeps_getitem n0 {V} (d : gmap string V) key : keeps n0 (getitem d key : M F V).
Proof.
  apply keeps_same. intros w. unfold getitem. destruct (d !! key); by eexists.
Qed.

Lemma keeps_emit n0 ev : keeps n0 (emit ev : M F unit).
Proof.
  intros w w' r Hrun. unfold emit in Hrun. injection Hrun as <- _.
  repeat split; try done. by eexists.
Qed.

Lemma keeps_bind n0 {A B} (c : M F A) (f : A -> M F B) :
  keeps n0 c -> (forall a, keeps n0 (f a)) -> keeps n0 (c ≫= f).
Proof.
  intros Hc Hf w w' r Hrun. unfold mbind, M_bind in Hrun.
  destruct (c w) as [w1 [a|e]] eqn:Hcw.
  - destruct (Hc _ _ _ Hcw) as (Hr1 & Hs1 & Hl1 & evs1 & Hg1).
    destruct (Hf a _ _ _ Hrun) as (Hr2 & Hs2 & Hl2 & evs2 & Hg2).
    split; [congruence|]. split; [congruence|].
    split; [intros l Hl; by rewrite Hl2, Hl1|].
    exists (evs1 ++ evs2). by rewrite Hg2, Hg1, app_assoc.
  - injection Hrun as <- <-. by apply (Hc _ _ _ Hcw).
Qed.

Lemma keeps_torch_load n0 path : keeps n0 (torch_load env path).
Proof. unfold torch_load. apply keeps_bind; [apply keeps_emit|intros; apply keeps_lift]. Qed.

Lemma keeps_load_from_state_dict n0 (sd : gmap string (tensor F)) key l :
  n0 <= l -> keeps n0 (load_from_state_dict sd key l).
Proof.
  intros Hl w w' r Hrun.
  destruct (load_from_state_dict_run sd key l w) as (h' & Heq & Hs & Hother).
  rewrite Heq in Hrun. injection Hrun as <- _. cbn [heap rng log].
  split; [done|]. split; [done|].
  split; [intros l' Hl'; apply Hother; lia|].
  exists []. by rewrite app_nil_r.
Qed.

Lemma keeps_load_state_dict n0 self (sd : gmap string (tensor F)) strict :
  n0 <= prefix_task_cols self -> n0 <= prefix_task_rows self -> n0 <= embedding self ->
  keeps n0 (load_state_dict self sd strict).
Proof.
  intros Hc Hr He. unfold load_state_dict.
  apply keeps_bind; [apply keeps_emit|intros _].
  apply keeps_bind; [by apply keeps_load_from_state_dict|intros o1].
  apply keeps_bind; [by apply keeps_load_from_state_dict|intros o2].
  apply keeps_bind; [by apply keeps_load_from_state_dict|intros o3].
  cbv zeta.
  match goal with |- keeps _ (if ?b then _ else _) => destruct b end;
    [apply keeps_raise | apply keeps_ret].
Qed.

(** A computation that, when it returns, returns [a0]. *)
Definition yields {A} (a0 : A) (c : M F A) : Prop :=
  forall w w' a, c w = (w', Ok a) -> a = a0.

Lemma yields_ret {A} (a : A) : yields a (mret a : M F A).
Proof. intros w w' a' Hrun. by injection Hrun as _ <-. Qed.

Lemma yields_bind {A B} (b0 : B) (c : M F A) (f : A -> M F B) :
  (forall a, yields b0 (f a)) -> yields b0 (c ≫= f).
Proof.
  intros Hf w w' b Hrun. unfold mbind, M_bind in Hrun.
  destruct (c w) as [w1 [a|e]]; [by eapply Hf|discriminate].
Qed.

(** In every mode and whatever comes of it, a construction puts three
    tensors of the configured shapes behind the tensors that were there,
    draws the numbers of the two factors, and logs the two draws first. *)
Lemma init_invariant config we (w w' : world F) r :
  __init__ env config we w = (w', r) ->
  rng w' = rng w + numel (cols_size config) + numel (rows_size config)
  /\ (exists xs, heap w' = heap w ++ xs
                 /\ map shape xs = [base_size config; cols_size config; rows_size config])
  /\ (exists evs, log w' = log w ++ [EvNormal (cols_size config);
                                      EvNormal (rows_size config)] ++ evs)
  /\ (forall self, r = Ok self -> self = new_self config w).
Proof.
  revert w' r. init_prefix config we w. intros w' r Hrun.
  match type of Hrun with
  | ?c ?W = _ =>
      assert (Hk : keeps (length (heap w)) c);
      [|assert (Hy : yields (new_self config w) c)]
  end.
  - repeat first
      [ apply keeps_ret | apply keeps_raise | apply keeps_lift | apply keeps_getitem
      | apply keeps_torch_load
      | apply keeps_load_state_dict;
        cbn [new_self embedding prefix_task_cols prefix_task_rows]; lia
      | apply keeps_bind; [|intros ?]
      | match goal with
        | |- keeps _ (if ?b then _ else _) => destruct b
        | |- keeps _ (match ?o with Some _ => _ | None => _ end) => destruct o
        end ].
  - apply yields_bind. intros sd. apply yields_bind. intros _. apply yields_ret.
  - destruct (Hk _ _ _ Hrun) as (Hrng & Hshape & Hlow & evs & Hlog).
    cbn [heap rng log] in *.
    split; [done|]. split; [|split].
    + exists (drop (length (heap w)) (heap w')). split.
      * rewrite <- (take_drop (length (heap w)) (heap w')) at 1. f_equal.
        apply list_eq. intros l.
        destruct (decide (l < length (heap w))) as [Hl|Hl].
        -- rewrite lookup_take_lt by done. rewrite Hlow by done.
           by rewrite lookup_app_l.
        -- rewrite lookup_take_ge by lia. symmetry. apply lookup_ge_None. lia.
      * unfold drop. rewrite <- skipn_map.
        rewrite Hshape, map_app.
        rewrite <- (length_map shape (heap w)). by rewrite skipn_app, skipn_all, Nat.sub_diag.
    + exists evs. by rewrite Hlog, <- app_assoc.
    + intros self ->. by eapply Hy.
Qed.
End Construction.

(** ** The lookup on a table with known parameters *)

Section LookupFacts.
Context {F : Type} `{Scalar F}.
Import MultitaskPromptEmbedding.

Lemma forward_outcome (self : t) (w : world F) (W C R : tensor F)
    (indices : tensor Z) (task_ids : option (tensor Z)) :
  parameters w self W C R ->
  outcome (forward self indices task_ids w) = compose W C R indices task_ids.
Proof.
  intros (HW & HC & HR).
  rewrite forward_compose by (by eapply lookup_lt_Some).
  unfold deref.
  by rewrite (nth_lookup_Some _ _ _ _ HW), (nth_lookup_Some _ _ _ _ HC),
    (nth_lookup_Some _ _ _ _ HR).
Qed.

Lemma outcome_raise (r : world F * result loc) e :
  outcome r = Raise e -> r.2 = Raise e.
Proof. destruct r as [w' [l|e']]; simpl; congruence. Qed.

(** A task identifier outside the task dimension makes the lookup raise
    an index error, whatever the positions are. *)
Lemma compose_task_id_out_of_range (W C R : tensor F) (indices tids : tensor Z)
    v d T sh (t : Z) :
  shape W = [v; d] -> shape C = T :: sh ->
  length (shape tids) <= 1 ->
  t ∈ data tids -> (t < 0 \/ Z.of_nat T <= t)%Z ->
  compose W C R indices (Some tids) = Raise IndexError.
Proof.
  intros HW HC Hvec Hin Hout.
  unfold compose, torch.embedding, torch.index_select0. rewrite HW, HC.
  destruct (decide (Forall _ (data indices))); [|done].
  unfold mbind, result_bind.
  rewrite decide_True by done. rewrite decide_False; [done|].
  intros Hall. rewrite Forall_forall in Hall. specialize (Hall t Hin). lia.
Qed.

(** A position outside the base table makes the lookup raise an index
    error, whatever the task identifiers are. *)
Lemma compose_position_out_of_range (W C R : tensor F) (indices tids : tensor Z)
    v d (i : Z) :
  shape W = [v; d] ->
  i ∈ data indices -> (i < 0 \/ Z.of_nat v <= i)%Z ->
  compose W C R indices (Some tids) = Raise IndexError.
Proof.
  intros HW Hin Hout. unfold compose, torch.embedding. rewrite HW.
  rewrite decide_False; [done|].
  intros Hall. rewrite Forall_forall in Hall. specialize (Hall i Hin). lia.
Qed.

(** The reference a lookup returns is a new one, behind every tensor that
    existed: the call adds one tensor to the heap and nothing else. *)
Lemma forward_returns_fresh (self : t) (indices : tensor Z) (task_ids : option (tensor Z))
    (w w' : world F) (l : loc) :
  forward self indices task_ids w = (w', Ok l) ->
  l = length (heap w) /\ exists out, heap w' = heap w ++ [out].
Proof.
  unfold forward.
  destruct task_ids as [tids|]; [|discriminate].
  unfold Embedding_call, imul, read, write, alloc, lift, mbind, M_bind,
    assert_not_none, mret, M_ret. simpl.
  destruct (torch.embedding _ indices) as [base|e]; [|discriminate]. simpl.
  destruct (torch.index_select0 _ tids) as [cols|e]; [|discriminate].
  destruct (torch.index_select0 _ tids) as [rows|e]; [|discriminate].
  destruct (torch.matmul cols rows) as [modulation|e]; [|discriminate]. simpl.
  destruct (torch.mul_ _ modulation) as [v|e]; [|discriminate]. simpl.
  intros Hrun. injection Hrun as <- <-. split; [done|].
  exists v. simpl. rewrite insert_app_r_alt by done.
  by rewrite Nat.sub_diag.
Qed.

(** One task identifier serves every batch row: the modulation of the one
    task is broadcast over the batch. *)
Lemma compose_single_task_id (W C R : tensor F) (indices tids : tensor Z)
    v d T n r B :
  shape W = [v; d] -> shape C = [T; n; r] -> shape R = [T; r; d] ->
  shape indices = [B; n] ->
  Forall (fun i => 0 <= i < Z.of_nat v)%Z (data indices) ->
  shape tids = [1] ->
  Forall (fun i => 0 <= i < Z.of_nat T)%Z (data tids) ->
  exists out,
    compose W C R indices (Some tids) = Ok out
    /\ shape out = [B; n; d] /\ wf out
    /\ forall b i j, b < B -> i < n -> j < d ->
         tget out [b; i; j]
         = s_mul (tget W [Z.to_nat (tget indices [b; i]); j])
             (s_sum (map (fun k => s_mul (tget C [Z.to_nat (tget tids [0]); i; k])
                                         (tget R [Z.to_nat (tget tids [0]); k; j]))
                         (seq 0 r))).
Proof.
  intros HW HC HR Hi Hir Ht Htr.
  unfold compose, torch.embedding, torch.index_select0, torch.matmul.
  rewrite HW, HC, HR, Hi, Ht.
  change (numel [1]) with 1.
  rewrite (decide_True (P := Forall _ (data indices))) by done.
  rewrite (decide_True (P := length [1] <= 1)) by (simpl; lia).
  rewrite !(decide_True (P := Forall _ (data tids))) by done.
  unfold mbind, result_bind. simpl.
  rewrite !decide_True by done.
  unfold torch.mul_. cbn [shape tinit].
  assert (Hexp : torch.expandable [B; n; d] [1; n; d] = true).
  { unfold torch.expandable. simpl. rewrite !Nat.eqb_refl. simpl.
    by rewrite orb_true_r. }
  rewrite Hexp.
  eexists. split; [done|]. split; [done|]. split; [apply tinit_wf|].
  intros b i j Hb Hi' Hj.
  rewrite tget_tinit by (by apply in_bounds3).
  assert (Hbi : torch.broadcast_index [1; n; d] [b; i; j] = [0; i; j]).
  { unfold torch.broadcast_index. simpl.
    destruct (Nat.eqb_spec n 1), (Nat.eqb_spec d 1); repeat f_equal; lia. }
  rewrite Hbi.
  rewrite !tget_tinit by (apply in_bounds3; lia).
  simpl. f_equal.
  f_equal. apply map_ext_in. intros k Hk. apply in_seq in Hk.
  by rewrite !tget_tinit by (apply in_bounds3; lia).
Qed.

(** A number of task identifiers that is neither the batch size nor 1
    makes the in-place product raise. *)
Lemma compose_task_count_mismatch (W C R : tensor F) (indices tids : tensor Z)
    v d T n r B B' :
  shape W = [v; d] -> shape C = [T; n; r] -> shape R = [T; r; d] ->
  shape indices = [B; n] ->
  Forall (fun i => 0 <= i < Z.of_nat v)%Z (data indices) ->
  shape tids = [B'] ->
  Forall (fun i => 0 <= i < Z.of_nat T)%Z (data tids) ->
  B' <> B -> B' <> 1 ->
  compose W C R indices (Some tids) = Raise RuntimeError.
Proof.
  intros HW HC HR Hi Hir Ht Htr HneB Hne1.
  unfold compose, torch.embedding, torch.index_select0, torch.matmul.
  rewrite HW, HC, HR, Hi, Ht.
  change (numel [B']) with (B' * 1). rewrite Nat.mul_1_r.
  rewrite (decide_True (P := Forall _ (data indices))) by done.
  rewrite (decide_True (P := length [B'] <= 1)) by (simpl; lia).
  rewrite !(decide_True (P := Forall _ (data tids))) by done.
  unfold mbind, result_bind. simpl.
  rewrite !decide_True by done.
  unfold torch.mul_. cbn [shape tinit].
  assert (Hexp : torch.expandable [B; n; d] [B'; n; d] = false).
  { unfold torch.expandable. simpl. rewrite !Nat.eqb_refl. simpl.
    apply Nat.eqb_neq in HneB, Hne1. by rewrite HneB, Hne1. }
  by rewrite Hexp.
Qed.
End LookupFacts.

(** ** A concrete table, checkpoints and configurations *)

(** The table of the spec's scenario: one task, rank one, two virtual
    tokens of dimension one. *)
Definition scenario_world : world float :=
  World [Tensor [2; 1] [2; 3]%float;
         Tensor [1; 2; 1] [1; 0.5]%float;
         Tensor [1; 1; 1] [2]%float] 0 [].

Definition scenario_table : MultitaskPromptEmbedding.t :=
  MultitaskPromptEmbedding.Build 0 1 2 1 1 2 1 1.

(** A checkpoint of two source tasks, and one that holds the shared prompt
    only. *)
Definition source_checkpoint : gmap string (tensor float) :=
  <["prompt_embeddings" := Tensor [2; 1] [2; 3]%float]>
    (<["prefix_task_cols" := Tensor [2; 2; 1] [1; 0.5; 3; 4]%float]>
       (<["prefix_task_rows" := Tensor [2; 1; 1] [2; 6]%float]> ∅)).

Definition shared_checkpoint : gmap string (tensor float) :=
  <["prompt_embeddings" := Tensor [2; 1] [2; 3]%float]> ∅.

Definition example_env : environment float :=
  Environment
    (fun k => s_of_nat (k + 1))
    (fun _ _ => 0%float)
    (fun path =>
       if String.eqb path "source.pt" then Ok source_checkpoint
       else if String.eqb path "shared.pt" then Ok shared_checkpoint
       else Raise (FileNotFoundError path)).

(** The scenario's table saved to a checkpoint, and the place it is read
    from. *)
Definition scenario_checkpoint : gmap string (tensor float) :=
  <["prompt_embeddings" := Tensor [2; 1] [2; 3]%float]>
    (<["prefix_task_cols" := Tensor [1; 2; 1] [1; 0.5]%float]>
       (<["prefix_task_rows" := Tensor [1; 1; 1] [2]%float]> ∅)).

Definition scenario_env : environment float :=
  Environment (fun k => s_of_nat (k + 1)) (fun _ _ => 0%float)
    (fun path =>
       if String.eqb path "scenario.pt" then Ok scenario_checkpoint
       else Raise (FileNotFoundError path)).

Definition empty_world : world float := World [] 0 [].

Definition no_word_embeddings : tensor float := Tensor [0; 1] [].

(** Two virtual tokens of dimension one, the other fields as given. *)
Definition example_config (init : MultitaskPromptTuningInit) (path : option string)
    (task : option (option Z)) (num_tasks : option nat) : MultitaskPromptTuningConfig.t :=
  MultitaskPromptTuningConfig.new 2 1 1 (Some (Member init)) (Some path) task None num_tasks.

(** * The claims *)

(** C2, as stated, fails: with [EXACT_SOURCE_TASK] and no path the
    constructor raises the [ValueError] only after it has drawn both factors
    (two [EvNormal] events are in the log, three tensors on the heap). *)
Lemma missing_path_raises_after_factor_allocation :
  exists w' msg,
    MultitaskPromptEmbedding.__init__ example_env
      (example_config EXACT_SOURCE_TASK None None None) no_word_embeddings empty_world
    = (w', Raise (ValueError msg))
    /\ log w' = [EvNormal [1; 2; 1]; EvNormal [1; 1; 1]]
    /\ heap w' = [Tensor [2; 1] [0; 0]%float;
                  Tensor [1; 2; 1] [1; 2]%float;
                  Tensor [1; 1; 1] [3]%float].
Proof. eexists _, _. vm_compute. done. Qed.

(** C2 (amended): in a source mode with no path, construction raises a
    [ValueError] whose message names the mode; at that point the base table
    and both factors are allocated and drawn, and no checkpoint read has
    been attempted (the log holds the two draws and nothing else). *)
Theorem missing_path_raises_before_checkpoint_read :
  forall (F : Type) (HS : Scalar F) (env : environment F)
         (config : MultitaskPromptTuningConfig.t) (word_embeddings : tensor F)
         (w : world F) (m : MultitaskPromptTuningInit),
    m = AVERAGE_SOURCE_TASKS \/ m = EXACT_SOURCE_TASK \/ m = ONLY_SOURCE_SHARED ->
    has_mode config m ->
    MultitaskPromptTuningConfig.prompt_tuning_init_state_dict_path config = None ->
    exists w',
      MultitaskPromptEmbedding.__init__ env config word_embeddings w
      = (w', Raise (ValueError
                      ("prompt_tuning_init_state_dict_path needs to be specified with "
                       ++ value m ++ " init method")%string))
      /\ heap w' = heap w ++ [base_table env config word_embeddings;
                              fresh_cols env config w; fresh_rows env config w]
      /\ log w' = log w ++ [EvNormal (cols_size config); EvNormal (rows_size config)].
Proof.
  intros F HS env config we w m Hm Hmode Hpath.
  exists (allocated env config we w). split; [|done].
  by apply missing_path_raises.
Qed.

Lemma missing_path_raises_before_checkpoint_read_witness :
  exists w',
    MultitaskPromptEmbedding.__init__ example_env
      (example_config ONLY_SOURCE_SHARED None None None) no_word_embeddings empty_world
    = (w', Raise (ValueError
                    "prompt_tuning_init_state_dict_path needs to be specified with ONLY_SOURCE_SHARED init method"))
    /\ heap w' = [Tensor [2; 1] [0; 0]%float;
                  Tensor [1; 2; 1] [1; 2]%float;
                  Tensor [1; 1; 1] [3]%float]
    /\ log w' = [EvNormal [1; 2; 1]; EvNormal [1; 1; 1]].
Proof.
  apply (missing_path_raises_before_checkpoint_read float float_scalar example_env
           (example_config ONLY_SOURCE_SHARED None None None) no_word_embeddings
           empty_world ONLY_SOURCE_SHARED).
  - right. right. reflexivity.
  - reflexivity.
  - reflexivity.
Defined.

(** C3: with [EXACT_SOURCE_TASK], a source task index [k] within the
    checkpoint's [n] source tasks and a table of one task whose dimensions are
    the checkpoint's, construction succeeds; the factors then have leading
    dimension 1 and hold, entry for entry, slice [k] of the checkpoint's
    factors; the base table is the checkpoint's [prompt_embeddings]; the load
    was a strict one. *)
Theorem exact_source_task_loads_slice :
  forall (F : Type) (HS : Scalar F) (env : environment F)
         (config : MultitaskPromptTuningConfig.t) (word_embeddings : tensor F)
         (w : world F) (path : string) (ckpt : gmap string (tensor F))
         (pe C R : tensor F) (n : nat) (k : Z),
    has_mode config EXACT_SOURCE_TASK ->
    MultitaskPromptTuningConfig.prompt_tuning_init_state_dict_path config = Some path ->
    files env path = Ok ckpt ->
    ckpt !! "prefix_task_cols" = Some C ->
    ckpt !! "prefix_task_rows" = Some R ->
    ckpt !! "prompt_embeddings" = Some pe ->
    MultitaskPromptTuningConfig.prompt_tuning_init_task config = Some k ->
    (0 <= k < Z.of_nat n)%Z ->
    MultitaskPromptTuningConfig.num_tasks config = 1 ->
    shape C = [n; total_virtual_tokens config;
               MultitaskPromptTuningConfig.num_ranks config] ->
    shape R = [n; MultitaskPromptTuningConfig.num_ranks config;
               MultitaskPromptTuningConfig.token_dim config] ->
    shape pe = base_size config ->
    exists w' self c r,
      MultitaskPromptEmbedding.__init__ env config word_embeddings w = (w', Ok self)
      /\ parameters w' self pe c r
      /\ shape c = [1; total_virtual_tokens config;
                    MultitaskPromptTuningConfig.num_ranks config]
      /\ shape r = [1; MultitaskPromptTuningConfig.num_ranks config;
                    MultitaskPromptTuningConfig.token_dim config]
      /\ wf c /\ wf r
      /\ (forall i j, i < total_virtual_tokens config ->
                      j < MultitaskPromptTuningConfig.num_ranks config ->
                      tget c [0; i; j] = tget C [Z.to_nat k; i; j])
      /\ (forall i j, i < MultitaskPromptTuningConfig.num_ranks config ->
                      j < MultitaskPromptTuningConfig.token_dim config ->
                      tget r [0; i; j] = tget R [Z.to_nat k; i; j])
      /\ log w' = log w ++ [EvNormal (cols_size config); EvNormal (rows_size config);
                            EvTorchLoad path; EvLoadStateDict true].
Proof.
  intros F HS env config we w path ckpt pe C R n k
    Hmode Hpath Hf HC HR Hpe Hk Hrange Hone HsC HsR Hspe.
  destruct (init_exact_entries env config we w path ckpt pe C R n k)
    as (c & r & Hrun & Hc & Hr & Hwc & Hwr & Hec & Her); try done.
  exists (loaded config w path true pe c r), (new_self config w), c, r.
  repeat split; try done; apply loaded_parameters.
Qed.

Lemma exact_source_task_loads_slice_witness :
  exists w' self c r,
    MultitaskPromptEmbedding.__init__ example_env
      (example_config EXACT_SOURCE_TASK (Some "source.pt") (Some (Some 1%Z)) None)
      no_word_embeddings empty_world = (w', Ok self)
    /\ parameters w' self (Tensor [2; 1] [2; 3]%float) c r
    /\ shape c = [1; 2; 1] /\ shape r = [1; 1; 1]
    /\ wf c /\ wf r
    /\ (forall i j, i < 2 -> j < 1 ->
          tget c [0; i; j] = tget (Tensor [2; 2; 1] [1; 0.5; 3; 4]%float) [1; i; j])
    /\ (forall i j, i < 1 -> j < 1 ->
          tget r [0; i; j] = tget (Tensor [2; 1; 1] [2; 6]%float) [1; i; j])
    /\ log w' = [EvNormal [1; 2; 1]; EvNormal [1; 1; 1];
                 EvTorchLoad "source.pt"; EvLoadStateDict true].
Proof.
  apply (exact_source_task_loads_slice float float_scalar example_env
           (example_config EXACT_SOURCE_TASK (Some "source.pt") (Some (Some 1%Z)) None)
           no_word_embeddings empty_world "source.pt" source_checkpoint
           (Tensor [2; 1] [2; 3]%float)
           (Tensor [2; 2; 1] [1; 0.5; 3; 4]%float)
           (Tensor [2; 1; 1] [2; 6]%float) 2 1%Z);
    try reflexivity.
  lia.
Defined.

(** C4: with [AVERAGE_SOURCE_TASKS] and a table of one task whose dimensions
    are the checkpoint's, construction succeeds; the factors then have leading
    dimension 1 and every entry is the sum over the [n] source tasks of the
    checkpoint's entries divided by [n]; the base table is the checkpoint's
    [prompt_embeddings]; the load was a strict one.  The load is fatal: a
    checkpoint tensor whose shape is not the parameter's makes the
    construction raise [RuntimeError], and a key that the checkpoint lacks
    makes it raise [KeyError]. *)
Theorem average_source_tasks_loads_mean :
  forall (F : Type) (HS : Scalar F) (env : environment F)
         (config : MultitaskPromptTuningConfig.t) (word_embeddings : tensor F)
         (w : world F) (path : string) (ckpt : gmap string (tensor F)),
    has_mode config AVERAGE_SOURCE_TASKS ->
    MultitaskPromptTuningConfig.prompt_tuning_init_state_dict_path config = Some path ->
    files env path = Ok ckpt ->
    (forall (pe C R : tensor F) (n : nat),
        ckpt !! "prefix_task_cols" = Some C ->
        ckpt !! "prefix_task_rows" = Some R ->
        ckpt !! "prompt_embeddings" = Some pe ->
        MultitaskPromptTuningConfig.num_tasks config = 1 ->
        shape C = [n; total_virtual_tokens config;
                   MultitaskPromptTuningConfig.num_ranks config] ->
        shape R = [n; MultitaskPromptTuningConfig.num_ranks config;
                   MultitaskPromptTuningConfig.token_dim config] ->
        shape pe = base_size config ->
        exists w' self c r,
          MultitaskPromptEmbedding.__init__ env config word_embeddings w = (w', Ok self)
          /\ parameters w' self pe c r
          /\ shape c = [1; total_virtual_tokens config;
                        MultitaskPromptTuningConfig.num_ranks config]
          /\ shape r = [1; MultitaskPromptTuningConfig.num_ranks config;
                        MultitaskPromptTuningConfig.token_dim config]
          /\ wf c /\ wf r
          /\ (forall i j, i < total_virtual_tokens config ->
                          j < MultitaskPromptTuningConfig.num_ranks config ->
                          tget c [0; i; j]
                          = s_div (s_sum (map (fun s => tget C [s; i; j]) (seq 0 n)))
                                  (s_of_nat n))
          /\ (forall i j, i < MultitaskPromptTuningConfig.num_ranks config ->
                          j < MultitaskPromptTuningConfig.token_dim config ->
                          tget r [0; i; j]
                          = s_div (s_sum (map (fun s => tget R [s; i; j]) (seq 0 n)))
                                  (s_of_nat n))
          /\ log w' = log w ++ [EvNormal (cols_size config); EvNormal (rows_size config);
                                EvTorchLoad path; EvLoadStateDict true])
    /\ (forall (pe C R : tensor F),
          ckpt !! "prefix_task_cols" = Some C ->
          ckpt !! "prefix_task_rows" = Some R ->
          ckpt !! "prompt_embeddings" = Some pe ->
          shape pe <> base_size config
          \/ shape (torch.mean0_keepdim C) <> cols_size config
          \/ shape (torch.mean0_keepdim R) <> rows_size config ->
          (MultitaskPromptEmbedding.__init__ env config word_embeddings w).2
          = Raise RuntimeError)
    /\ (forall key,
          key ∈ ["prefix_task_cols"; "prefix_task_rows"; "prompt_embeddings"] ->
          ckpt !! key = None ->
          exists key', ckpt !! key' = None
            /\ (MultitaskPromptEmbedding.__init__ env config word_embeddings w).2
               = Raise (KeyError key')).
Proof.
  intros F HS env config we w path ckpt Hmode Hpath Hf.
  split; [|split].
  - intros pe C R n HC HR Hpe Hone HsC HsR Hspe.
    destruct (init_average_entries env config we w path ckpt pe C R n)
      as (c & r & Hrun & Hc & Hr & Hwc & Hwr & Hec & Her); try done.
    exists (loaded config w path true pe c r), (new_self config w), c, r.
    repeat split; try done; apply loaded_parameters.
  - intros pe C R HC HR Hpe Hbad. by eapply init_average_mismatch.
  - intros key Hkey Hnone. by eapply init_average_missing.
Qed.

Lemma average_source_tasks_loads_mean_witness :
  exists w' self c r,
    MultitaskPromptEmbedding.__init__ example_env
      (example_config AVERAGE_SOURCE_TASKS (Some "source.pt") None None)
      no_word_embeddings empty_world = (w', Ok self)
    /\ heap w' = [Tensor [2; 1] [2; 3]%float; c; r]
    /\ c = Tensor [1; 2; 1] [2; 2.25]%float
    /\ r = Tensor [1; 1; 1] [4]%float.
Proof.
  destruct (average_source_tasks_loads_mean float float_scalar example_env
              (example_config AVERAGE_SOURCE_TASKS (Some "source.pt") None None)
              no_word_embeddings empty_world "source.pt" source_checkpoint
              eq_refl eq_refl eq_refl) as [Hok _].
  destruct (Hok (Tensor [2; 1] [2; 3]%float)
                (Tensor [2; 2; 1] [1; 0.5; 3; 4]%float)
                (Tensor [2; 1; 1] [2; 6]%float) 2
                eq_refl eq_refl eq_refl eq_refl eq_refl eq_refl eq_refl)
    as (w' & self & c & r & Hrun & _).
  exists w', self.
  vm_compute in Hrun. injection Hrun as <- <-.
  eexists _, _. repeat split.
Defined.

(** C5: with [ONLY_SOURCE_SHARED], a checkpoint that holds
    [prompt_embeddings] of the table's shape is enough, whatever else it
    holds or lacks: construction succeeds, the base table is the checkpoint's
    [prompt_embeddings], both factors are the tensors that were drawn from the
    generator, and the load was a non-strict one. *)
Theorem only_source_shared_keeps_fresh_factors :
  forall (F : Type) (HS : Scalar F) (env : environment F)
         (config : MultitaskPromptTuningConfig.t) (word_embeddings : tensor F)
         (w : world F) (path : string) (ckpt : gmap string (tensor F)) (pe : tensor F),
    has_mode config ONLY_SOURCE_SHARED ->
    MultitaskPromptTuningConfig.prompt_tuning_init_state_dict_path config = Some path ->
    files env path = Ok ckpt ->
    ckpt !! "prompt_embeddings" = Some pe ->
    shape pe = base_size config ->
    exists w' self,
      MultitaskPromptEmbedding.__init__ env config word_embeddings w = (w', Ok self)
      /\ parameters w' self pe
           (Tensor (cols_size config)
              (map (gauss env) (seq (rng w) (numel (cols_size config)))))
           (Tensor (rows_size config)
              (map (gauss env)
                 (seq (rng w + numel (cols_size config)) (numel (rows_size config)))))
      /\ log w' = log w ++ [EvNormal (cols_size config); EvNormal (rows_size config);
                            EvTorchLoad path; EvLoadStateDict false].
Proof.
  intros F HS env config we w path ckpt pe Hmode Hpath Hf Hpe Hspe.
  exists (loaded config w path false pe (fresh_cols env config w) (fresh_rows env config w)),
    (new_self config w).
  split; [by eapply init_shared_run|]. split; [apply loaded_parameters|done].
Qed.

Lemma only_source_shared_keeps_fresh_factors_witness :
  shared_checkpoint !! "prefix_task_cols" = None
  /\ shared_checkpoint !! "prefix_task_rows" = None
  /\ exists w' self,
       MultitaskPromptEmbedding.__init__ example_env
         (example_config ONLY_SOURCE_SHARED (Some "shared.pt") None (Some 3))
         no_word_embeddings empty_world = (w', Ok self)
       /\ parameters w' self (Tensor [2; 1] [2; 3]%float)
            (Tensor [3; 2; 1] [1; 2; 3; 4; 5; 6]%float)
            (Tensor [3; 1; 1] [7; 8; 9]%float)
       /\ log w' = [EvNormal [3; 2; 1]; EvNormal [3; 1; 1];
                    EvTorchLoad "shared.pt"; EvLoadStateDict false].
Proof.
  split; [reflexivity|]. split; [reflexivity|].
  apply (only_source_shared_keeps_fresh_factors float float_scalar example_env
           (example_config ONLY_SOURCE_SHARED (Some "shared.pt") None (Some 3))
           no_word_embeddings empty_world "shared.pt" shared_checkpoint
           (Tensor [2; 1] [2; 3]%float));
    reflexivity.
Defined.

(** C6: without task identifiers the lookup raises the assertion error,
    whatever the positions and the table are; nothing is returned and the
    world is left as it was. *)
Theorem forward_requires_task_ids :
  forall (F : Type) (HS : Scalar F) (self : MultitaskPromptEmbedding.t)
         (indices : tensor Z) (w : world F),
    MultitaskPromptEmbedding.forward self indices None w
    = (w, Raise (AssertionError "task_ids cannot be None")).
Proof. reflexivity. Qed.

(** C1, as stated, fails at its scenario: with the positions [[0, 1]] and
    the task identifiers [[0, 0]] the modulation has shape [[2, 2, 1]], the
    gathered base vectors have shape [[2, 1]] (or [[1, 2, 1]] when the
    positions are given as one batch row), and the in-place product raises. *)
Lemma scenario_as_stated_raises :
  outcome (MultitaskPromptEmbedding.forward scenario_table
             (Tensor [2] [0; 1]%Z) (Some (Tensor [2] [0; 0]%Z)) scenario_world)
  = Raise RuntimeError
  /\ outcome (MultitaskPromptEmbedding.forward scenario_table
                (Tensor [1; 2] [0; 1]%Z) (Some (Tensor [2] [0; 0]%Z)) scenario_world)
     = Raise RuntimeError.
Proof. split; vm_compute; reflexivity. Qed.

(** C1 (amended): for positions of shape [[B, n]] within the base table and
    [B] task identifiers within the task dimension, the lookup returns a
    tensor of shape [[B, n, d]] whose entry [[b, i, j]] is
    [base_vectors[indices[b, i], j]] times entry [[i, j]] of
    [task_cols[task_ids[b]] @ task_rows[task_ids[b]]].  In the scenario, the
    positions [[[0, 1]]] with the task identifiers [[0]] give [[[[4], [3]]]]. *)
Theorem forward_composes :
  (forall (F : Type) (HS : Scalar F) (self : MultitaskPromptEmbedding.t) (w : world F)
          (W C R : tensor F) (indices tids : tensor Z) (v d T n r B : nat),
      parameters w self W C R ->
      shape W = [v; d] -> shape C = [T; n; r] -> shape R = [T; r; d] ->
      shape indices = [B; n] ->
      Forall (fun i => 0 <= i < Z.of_nat v)%Z (data indices) ->
      shape tids = [B] ->
      Forall (fun t => 0 <= t < Z.of_nat T)%Z (data tids) ->
      exists out,
        outcome (MultitaskPromptEmbedding.forward self indices (Some tids) w) = Ok out
        /\ shape out = [B; n; d] /\ wf out
        /\ forall b i j, b < B -> i < n -> j < d ->
             tget out [b; i; j] = composed_entry W C R indices tids r b i j)
  /\ outcome (MultitaskPromptEmbedding.forward scenario_table
                (Tensor [1; 2] [0; 1]%Z) (Some (Tensor [1] [0]%Z)) scenario_world)
     = Ok (Tensor [1; 2; 1] [4; 3]%float).
Proof.
  split; [|vm_compute; reflexivity].
  intros F HS self w W C R indices tids v d T n r B Hp HW HC HR Hi Hir Ht Htr.
  rewrite (forward_outcome self w W C R) by done.
  by eapply compose_entries.
Qed.

Lemma forward_composes_witness :
  exists out,
    outcome (MultitaskPromptEmbedding.forward scenario_table
               (Tensor [1; 2] [0; 1]%Z) (Some (Tensor [1] [0]%Z)) scenario_world) = Ok out
    /\ shape out = [1; 2; 1] /\ wf out
    /\ forall b i j, b < 1 -> i < 2 -> j < 1 ->
         tget out [b; i; j]
         = composed_entry (Tensor [2; 1] [2; 3]%float) (Tensor [1; 2; 1] [1; 0.5]%float)
             (Tensor [1; 1; 1] [2]%float) (Tensor [1; 2] [0; 1]%Z) (Tensor [1] [0]%Z)
             1 b i j.
Proof.
  apply (proj1 forward_composes float float_scalar scenario_table scenario_world
           (Tensor [2; 1] [2; 3]%float) (Tensor [1; 2; 1] [1; 0.5]%float)
           (Tensor [1; 1; 1] [2]%float) (Tensor [1; 2] [0; 1]%Z) (Tensor [1] [0]%Z)
           2 1 1 2 1 1).
  - repeat split.
  - reflexivity.
  - reflexivity.
  - reflexivity.
  - reflexivity.
  - repeat constructor; lia.
  - reflexivity.
  - repeat constructor; lia.
Defined.

(** C9: a call leaves every tensor that existed before it as it was (the
    three parameters among them), draws no random number and logs nothing;
    called again in the world it leaves, with the same inputs, it returns the
    same output; and so does any table whose parameters hold the same
    values. *)
Theorem forward_is_pure :
  forall (F : Type) (HS : Scalar F) (self : MultitaskPromptEmbedding.t)
         (indices : tensor Z) (task_ids : option (tensor Z)) (w : world F),
    let w' := (MultitaskPromptEmbedding.forward self indices task_ids w).1 in
    (forall l, l < length (heap w) -> heap w' !! l = heap w !! l)
    /\ rng w' = rng w /\ log w' = log w
    /\ (forall W C R, parameters w self W C R ->
          parameters w' self W C R
          /\ outcome (MultitaskPromptEmbedding.forward self indices task_ids w')
             = outcome (MultitaskPromptEmbedding.forward self indices task_ids w)
          /\ forall (self2 : MultitaskPromptEmbedding.t) (w2 : world F),
               parameters w2 self2 W C R ->
               outcome (MultitaskPromptEmbedding.forward self2 indices task_ids w2)
               = outcome (MultitaskPromptEmbedding.forward self indices task_ids w)).
Proof.
  intros F HS self indices task_ids w w'.
  destruct (forward_frame self indices task_ids w) as (Hheap & Hrng & Hlog).
  fold w' in Hheap, Hrng, Hlog.
  split; [done|]. split; [done|]. split; [done|].
  intros W C R (HW & HC & HR).
  assert (Hp' : parameters w' self W C R).
  { unfold parameters.
    rewrite !Hheap by (by eapply lookup_lt_Some). done. }
  split; [done|]. split.
  - by rewrite (forward_outcome self w' W C R), (forward_outcome self w W C R).
  - intros self2 w2 Hp2.
    by rewrite (forward_outcome self2 w2 W C R), (forward_outcome self w W C R).
Qed.

(** C7: take a table of one task with well-formed factors, and a checkpoint
    that holds its three parameters.  A table built from that checkpoint with
    [EXACT_SOURCE_TASK], index 0 and the same dimensions holds the same three
    parameters, and its lookup gives, for every positions and task
    identifiers, what the lookup of the original table gives. *)
Theorem exact_source_round_trip :
  forall (F : Type) (HS : Scalar F) (env : environment F)
         (config : MultitaskPromptTuningConfig.t) (word_embeddings : tensor F)
         (w0 : world F) (self0 : MultitaskPromptEmbedding.t) (W C R : tensor F)
         (w : world F) (path : string) (ckpt : gmap string (tensor F)),
    parameters w0 self0 W C R ->
    wf C -> wf R ->
    shape W = base_size config ->
    shape C = cols_size config ->
    shape R = rows_size config ->
    MultitaskPromptTuningConfig.num_tasks config = 1 ->
    has_mode config EXACT_SOURCE_TASK ->
    MultitaskPromptTuningConfig.prompt_tuning_init_task config = Some 0%Z ->
    MultitaskPromptTuningConfig.prompt_tuning_init_state_dict_path config = Some path ->
    files env path = Ok ckpt ->
    ckpt !! "prompt_embeddings" = Some W ->
    ckpt !! "prefix_task_cols" = Some C ->
    ckpt !! "prefix_task_rows" = Some R ->
    exists w' self',
      MultitaskPromptEmbedding.__init__ env config word_embeddings w = (w', Ok self')
      /\ parameters w' self' W C R
      /\ forall (indices : tensor Z) (task_ids : option (tensor Z)),
           outcome (MultitaskPromptEmbedding.forward self' indices task_ids w')
           = outcome (MultitaskPromptEmbedding.forward self0 indices task_ids w0).
Proof.
  intros F HS env config we w0 self0 W C R w path ckpt
    Hp0 HwC HwR HsW HsC HsR Hone Hmode Hk Hpath Hf HW HC HR.
  exists (loaded config w path true W C R), (new_self config w).
  split; [by apply (init_exact_round_trip env config we w path ckpt)|].
  split; [apply loaded_parameters|].
  intros indices task_ids.
  rewrite (forward_outcome _ _ W C R) by apply loaded_parameters.
  by rewrite (forward_outcome self0 w0 W C R).
Qed.

Lemma exact_source_round_trip_witness :
  exists w' self',
    MultitaskPromptEmbedding.__init__ scenario_env
      (example_config EXACT_SOURCE_TASK (Some "scenario.pt") (Some (Some 0%Z)) (Some 1))
      no_word_embeddings scenario_world = (w', Ok self')
    /\ parameters w' self' (Tensor [2; 1] [2; 3]%float)
         (Tensor [1; 2; 1] [1; 0.5]%float) (Tensor [1; 1; 1] [2]%float)
    /\ forall (indices : tensor Z) (task_ids : option (tensor Z)),
         outcome (MultitaskPromptEmbedding.forward self' indices task_ids w')
         = outcome (MultitaskPromptEmbedding.forward scenario_table indices task_ids
                      scenario_world).
Proof.
  apply (exact_source_round_trip float float_scalar scenario_env
           (example_config EXACT_SOURCE_TASK (Some "scenario.pt") (Some (Some 0%Z)) (Some 1))
           no_word_embeddings scenario_world scenario_table
           (Tensor [2; 1] [2; 3]%float) (Tensor [1; 2; 1] [1; 0.5]%float)
           (Tensor [1; 1; 1] [2]%float) scenario_world "scenario.pt" scenario_checkpoint);
    try reflexivity.
  repeat split.
Defined.

(** C8, as stated, fails: the source task index -1 lies outside
    [[0, num_source_tasks)], and the construction raises nothing: it loads the
    last source task of the checkpoint. *)
Lemma negative_source_task_index_wraps :
  exists w' self,
    MultitaskPromptEmbedding.__init__ example_env
      (example_config EXACT_SOURCE_TASK (Some "source.pt") (Some (Some (-1)%Z)) None)
      no_word_embeddings empty_world = (w', Ok self)
    /\ heap w' = [Tensor [2; 1] [2; 3]%float;
                  Tensor [1; 2; 1] [3; 4]%float;
                  Tensor [1; 1; 1] [6]%float].
Proof. eexists _, _. vm_compute. done. Qed.

(** C8 (amended): a source task index below [-num_source_tasks] or at least
    [num_source_tasks] makes the [EXACT_SOURCE_TASK] construction raise
    [IndexError] once the checkpoint is read, before anything is loaded; and
    a task identifier outside [[0, num_tasks)] makes the lookup raise
    [IndexError].  Nothing is returned in either case. *)
Theorem out_of_range_index_raises :
  (forall (F : Type) (HS : Scalar F) (env : environment F)
          (config : MultitaskPromptTuningConfig.t) (word_embeddings : tensor F)
          (w : world F) (path : string) (ckpt : gmap string (tensor F))
          (C R : tensor F) (n : nat) (sh : list nat) (k : Z),
      has_mode config EXACT_SOURCE_TASK ->
      MultitaskPromptTuningConfig.prompt_tuning_init_state_dict_path config = Some path ->
      files env path = Ok ckpt ->
      ckpt !! "prefix_task_cols" = Some C ->
      ckpt !! "prefix_task_rows" = Some R ->
      MultitaskPromptTuningConfig.prompt_tuning_init_task config = Some k ->
      shape C = n :: sh ->
      (k < - Z.of_nat n \/ Z.of_nat n <= k)%Z ->
      exists w',
        MultitaskPromptEmbedding.__init__ env config word_embeddings w
        = (w', Raise IndexError)
        /\ log w' = log w ++ [EvNormal (cols_size config); EvNormal (rows_size config);
                              EvTorchLoad path])
  /\ (forall (F : Type) (HS : Scalar F) (self : MultitaskPromptEmbedding.t) (w : world F)
             (W C R : tensor F) (indices tids : tensor Z) (v d T : nat) (sh : list nat)
             (t : Z),
        parameters w self W C R ->
        shape W = [v; d] -> shape C = T :: sh ->
        length (shape tids) <= 1 ->
        t ∈ data tids -> (t < 0 \/ Z.of_nat T <= t)%Z ->
        (MultitaskPromptEmbedding.forward self indices (Some tids) w).2
        = Raise IndexError).
Proof.
  split.
  - intros F HS env config we w path ckpt C R n sh k Hmode Hpath Hf HC HR Hk HsC Hout.
    exists (checkpoint_read env config we w path). split; [|done].
    by eapply init_exact_index_error.
  - intros F HS self w W C R indices tids v d T sh t Hp HW HC Hvec Hin Hout.
    apply outcome_raise. rewrite (forward_outcome self w W C R) by done.
    by eapply compose_task_id_out_of_range.
Qed.

Lemma out_of_range_index_raises_witness :
  (exists w',
     MultitaskPromptEmbedding.__init__ example_env
       (example_config EXACT_SOURCE_TASK (Some "source.pt") (Some (Some 2%Z)) None)
       no_word_embeddings empty_world = (w', Raise IndexError)
     /\ log w' = [EvNormal [1; 2; 1]; EvNormal [1; 1; 1]; EvTorchLoad "source.pt"])
  /\ (MultitaskPromptEmbedding.forward scenario_table (Tensor [1; 2] [0; 1]%Z)
        (Some (Tensor [1] [1]%Z)) scenario_world).2 = Raise IndexError.
Proof.
  split.
  - apply (proj1 out_of_range_index_raises float float_scalar example_env
             (example_config EXACT_SOURCE_TASK (Some "source.pt") (Some (Some 2%Z)) None)
             no_word_embeddings empty_world "source.pt" source_checkpoint
             (Tensor [2; 2; 1] [1; 0.5; 3; 4]%float) (Tensor [2; 1; 1] [2; 6]%float)
             2 [2; 1] 2%Z); try reflexivity.
    right. lia.
  - apply (proj2 out_of_range_index_raises float float_scalar scenario_table scenario_world
             (Tensor [2; 1] [2; 3]%float) (Tensor [1; 2; 1] [1; 0.5]%float)
             (Tensor [1; 1; 1] [2]%float) (Tensor [1; 2] [0; 1]%Z) (Tensor [1] [1]%Z)
             2 1 1 [2; 1] 1%Z); try reflexivity.
    + repeat split.
    + apply list_elem_of_singleton. reflexivity.
    + right. lia.
Defined.

(** C10: a configuration built without a task index has index 0, and with
    [EXACT_SOURCE_TASK], a checkpoint of at least one source task and a table
    of one task whose dimensions are the checkpoint's, construction succeeds
    and the factors hold, entry for entry, slice 0 of the checkpoint's
    factors. *)
Theorem default_task_index_selects_first_source_task :
  forall (F : Type) (HS : Scalar F) (env : environment F)
         (num_virtual_tokens num_transformer_submodules token_dim : nat)
         (path : string) (num_ranks : option nat)
         (word_embeddings : tensor F) (w : world F)
         (ckpt : gmap string (tensor F)) (pe C R : tensor F) (n : nat),
    let config :=
      MultitaskPromptTuningConfig.new num_virtual_tokens num_transformer_submodules
        token_dim (Some (Member EXACT_SOURCE_TASK)) (Some (Some path)) None
        num_ranks None in
    files env path = Ok ckpt ->
    ckpt !! "prefix_task_cols" = Some C ->
    ckpt !! "prefix_task_rows" = Some R ->
    ckpt !! "prompt_embeddings" = Some pe ->
    0 < n ->
    shape C = [n; total_virtual_tokens config;
               MultitaskPromptTuningConfig.num_ranks config] ->
    shape R = [n; MultitaskPromptTuningConfig.num_ranks config;
               MultitaskPromptTuningConfig.token_dim config] ->
    shape pe = base_size config ->
    MultitaskPromptTuningConfig.prompt_tuning_init_task config = Some 0%Z
    /\ exists w' self c r,
         MultitaskPromptEmbedding.__init__ env config word_embeddings w = (w', Ok self)
         /\ parameters w' self pe c r
         /\ (forall i j, i < total_virtual_tokens config ->
                         j < MultitaskPromptTuningConfig.num_ranks config ->
                         tget c [0; i; j] = tget C [0; i; j])
         /\ (forall i j, i < MultitaskPromptTuningConfig.num_ranks config ->
                         j < MultitaskPromptTuningConfig.token_dim config ->
                         tget r [0; i; j] = tget R [0; i; j]).
Proof.
  intros F HS env nvt nts td path ranks we w ckpt pe C R n config
    Hf HC HR Hpe Hn HsC HsR Hspe.
  split; [reflexivity|].
  destruct (init_exact_entries env config we w path ckpt pe C R n 0%Z)
    as (c & r & Hrun & Hc & Hr & Hwc & Hwr & Hec & Her); try done; [lia|].
  exists (loaded config w path true pe c r), (new_self config w), c, r.
  repeat split; try done; apply loaded_parameters.
Qed.

Lemma default_task_index_selects_first_source_task_witness :
  MultitaskPromptTuningConfig.prompt_tuning_init_task
    (example_config EXACT_SOURCE_TASK (Some "source.pt") None None) = Some 0%Z
  /\ exists w' self c r,
       MultitaskPromptEmbedding.__init__ example_env
         (example_config EXACT_SOURCE_TASK (Some "source.pt") None None)
         no_word_embeddings empty_world = (w', Ok self)
       /\ parameters w' self (Tensor [2; 1] [2; 3]%float) c r
       /\ (forall i j, i < 2 -> j < 1 ->
             tget c [0; i; j] = tget (Tensor [2; 2; 1] [1; 0.5; 3; 4]%float) [0; i; j])
       /\ (forall i j, i < 1 -> j < 1 ->
             tget r [0; i; j] = tget (Tensor [2; 1; 1] [2; 6]%float) [0; i; j]).
Proof.
  apply (default_task_index_selects_first_source_task float float_scalar example_env
           2 1 1 "source.pt" None no_word_embeddings empty_world source_checkpoint
           (Tensor [2; 1] [2; 3]%float) (Tensor [2; 2; 1] [1; 0.5; 3; 4]%float)
           (Tensor [2; 1; 1] [2; 6]%float) 2);
    try reflexivity.
  lia.
Defined.

(** * Further properties of the constructor and the lookup *)



(** X2: a table that a construction returned, in whatever mode, can be
    looked up: for positions of shape [[B, total_virtual_tokens]] within the
    table and [B] task identifiers below [num_tasks], the lookup returns a
    tensor of shape [[B, total_virtual_tokens, token_dim]] whose entries are
    the products of the base vectors with the modulation of the table's own
    three parameters. *)
Theorem constructed_table_can_be_looked_up :
  forall (F : Type) (HS : Scalar F) (env : environment F)
         (config : MultitaskPromptTuningConfig.t) (word_embeddings : tensor F)
         (w w' : world F) (self : MultitaskPromptEmbedding.t)
         (indices tids : tensor Z) (B : nat),
    MultitaskPromptEmbedding.__init__ env config word_embeddings w = (w', Ok self) ->
    shape indices = [B; total_virtual_tokens config] ->
    Forall (fun i => 0 <= i < Z.of_nat (total_virtual_tokens config))%Z (data indices) ->
    shape tids = [B] ->
    Forall (fun t => 0 <= t < Z.of_nat (MultitaskPromptTuningConfig.num_tasks config))%Z
           (data tids) ->
    exists W C R out,
      parameters w' self W C R
      /\ outcome (MultitaskPromptEmbedding.forward self indices (Some tids) w') = Ok out
      /\ shape out = [B; total_virtual_tokens config;
                      MultitaskPromptTuningConfig.token_dim config]
      /\ wf out
      /\ forall b i j, b < B -> i < total_virtual_tokens config ->
                       j < MultitaskPromptTuningConfig.token_dim config ->
           tget out [b; i; j]
           = composed_entry W C R indices tids
               (MultitaskPromptTuningConfig.num_ranks config) b i j.
Proof.
  intros F HS env config we w w' self indices tids B Hrun Hi Hir Ht Htr.
  destruct (init_invariant env config we w w' (Ok self) Hrun)
    as (_ & (xs & Hheap & Hshapes) & _ & Hself).
  rewrite (Hself self eq_refl).
  destruct xs as [|W [|C [|R [|]]]]; try discriminate.
  injection Hshapes as HW HC HR.
  assert (Hp : parameters w' (new_self config w) W C R).
  { unfold parameters.
    cbn [new_self MultitaskPromptEmbedding.embedding
         MultitaskPromptEmbedding.prefix_task_cols
         MultitaskPromptEmbedding.prefix_task_rows].
    rewrite Hheap. split; [by rewrite list_lookup_middle|].
    split; by rewrite lookup_app_r, Nat.add_sub' by lia. }
  exists W, C, R.
  destruct (compose_entries W C R indices tids
              (total_virtual_tokens config) (MultitaskPromptTuningConfig.token_dim config)
              (MultitaskPromptTuningConfig.num_tasks config) (total_virtual_tokens config)
              (MultitaskPromptTuningConfig.num_ranks config) B)
    as (out & Hout & Hso & Hwo & Heo); try done.
  exists out. rewrite (forward_outcome _ _ W C R) by done. done.
Qed.

Lemma constructed_table_can_be_looked_up_witness :
  exists W C R out,
    parameters
      (allocated example_env (example_config RANDOM None None (Some 2))
         no_word_embeddings empty_world)
      (new_self (example_config RANDOM None None (Some 2)) empty_world) W C R
    /\ outcome (MultitaskPromptEmbedding.forward
                  (new_self (example_config RANDOM None None (Some 2)) empty_world)
                  (Tensor [1; 2] [1; 0]%Z) (Some (Tensor [1] [1]%Z))
                  (allocated example_env (example_config RANDOM None None (Some 2))
                     no_word_embeddings empty_world)) = Ok out
    /\ shape out = [1; 2; 1]
    /\ wf out
    /\ forall b i j, b < 1 -> i < 2 -> j < 1 ->
         tget out [b; i; j]
         = composed_entry W C R (Tensor [1; 2] [1; 0]%Z) (Tensor [1] [1]%Z) 1 b i j.
Proof.
  apply (constructed_table_can_be_looked_up float float_scalar example_env
           (example_config RANDOM None None (Some 2)) no_word_embeddings empty_world
           (allocated example_env (example_config RANDOM None None (Some 2))
              no_word_embeddings empty_world)
           (new_self (example_config RANDOM None None (Some 2)) empty_world)
           (Tensor [1; 2] [1; 0]%Z) (Tensor [1] [1]%Z) 1).
  - vm_compute. reflexivity.
  - reflexivity.
  - repeat constructor; simpl; lia.
  - reflexivity.
  - repeat constructor; simpl; lia.
Defined.

(** X3: a setting that names none of the three source modes ([RANDOM],
    [TEXT], any other string) makes the construction return without reading
    a checkpoint, even when a path is configured: the parameters are the
    table of the base class and the two factors as drawn, and the log holds
    the two draws only. *)
Theorem no_source_mode_reads_no_checkpoint :
  forall (F : Type) (HS : Scalar F) (env : environment F)
         (config : MultitaskPromptTuningConfig.t) (word_embeddings : tensor F)
         (w : world F),
    ~ has_mode config AVERAGE_SOURCE_TASKS ->
    ~ has_mode config EXACT_SOURCE_TASK ->
    ~ has_mode config ONLY_SOURCE_SHARED ->
    exists w' self,
      MultitaskPromptEmbedding.__init__ env config word_embeddings w = (w', Ok self)
      /\ parameters w' self (base_table env config word_embeddings)
           (fresh_cols env config w) (fresh_rows env config w)
      /\ log w' = log w ++ [EvNormal (cols_size config); EvNormal (rows_size config)].
Proof.
  intros F HS env config we w Ha He Ho.
  exists (allocated env config we w), (new_self config w).
  split; [|split; [|done]].
  - apply init_no_source_run. unfold init_in, init_eq, has_mode in *. cbn [existsb].
    repeat match goal with
           | |- context [String.eqb ?a ?b] =>
               destruct (String.eqb_spec a b); [done|]
           end.
    reflexivity.
  - unfold parameters, allocated.
    cbn [new_self MultitaskPromptEmbedding.embedding
         MultitaskPromptEmbedding.prefix_task_cols
         MultitaskPromptEmbedding.prefix_task_rows heap].
    split; [by rewrite list_lookup_middle|].
    split; by rewrite lookup_app_r, Nat.add_sub' by lia.
Qed.

Lemma no_source_mode_reads_no_checkpoint_witness :
  exists w' self,
    MultitaskPromptEmbedding.__init__ example_env
      (example_config TEXT (Some "source.pt") None None) no_word_embeddings empty_world
    = (w', Ok self)
    /\ parameters w' self (Tensor [2; 1] [0; 0]%float)
         (Tensor [1; 2; 1] [1; 2]%float) (Tensor [1; 1; 1] [3]%float)
    /\ log w' = [EvNormal [1; 2; 1]; EvNormal [1; 1; 1]].
Proof.
  apply (no_source_mode_reads_no_checkpoint float float_scalar example_env
           (example_config TEXT (Some "source.pt") None None) no_word_embeddings
           empty_world); intros Hm; vm_compute in Hm; discriminate Hm.
Defined.

(** X4: in a source mode with a path, an exception of the checkpoint read
    is the exception of the construction: nothing is looked up or loaded, and
    the log ends with the read. *)
Theorem checkpoint_read_error_propagates :
  forall (F : Type) (HS : Scalar F) (env : environment F)
         (config : MultitaskPromptTuningConfig.t) (word_embeddings : tensor F)
         (w : world F) (m : MultitaskPromptTuningInit) (path : string) (e : exn),
    m = AVERAGE_SOURCE_TASKS \/ m = EXACT_SOURCE_TASK \/ m = ONLY_SOURCE_SHARED ->
    has_mode config m ->
    MultitaskPromptTuningConfig.prompt_tuning_init_state_dict_path config = Some path ->
    files env path = Raise e ->
    exists w',
      MultitaskPromptEmbedding.__init__ env config word_embeddings w = (w', Raise e)
      /\ heap w' = heap w ++ [base_table env config word_embeddings;
                              fresh_cols env config w; fresh_rows env config w]
      /\ log w' = log w ++ [EvNormal (cols_size config); EvNormal (rows_size config);
                            EvTorchLoad path].
Proof.
  intros F HS env config we w m path e Hm Hmode Hpath Hf.
  exists (checkpoint_read env config we w path). split; [|done].
  by eapply init_load_error.
Qed.

Lemma checkpoint_read_error_propagates_witness :
  exists w',
    MultitaskPromptEmbedding.__init__ example_env
      (example_config AVERAGE_SOURCE_TASKS (Some "nowhere.pt") None None)
      no_word_embeddings empty_world
    = (w', Raise (FileNotFoundError "nowhere.pt"))
    /\ heap w' = [Tensor [2; 1] [0; 0]%float;
                  Tensor [1; 2; 1] [1; 2]%float;
                  Tensor [1; 1; 1] [3]%float]
    /\ log w' = [EvNormal [1; 2; 1]; EvNormal [1; 1; 1]; EvTorchLoad "nowhere.pt"].
Proof.
  apply (checkpoint_read_error_propagates float float_scalar example_env
           (example_config AVERAGE_SOURCE_TASKS (Some "nowhere.pt") None None)
           no_word_embeddings empty_world AVERAGE_SOURCE_TASKS "nowhere.pt"
           (FileNotFoundError "nowhere.pt")).
  - left. reflexivity.
  - reflexivity.
  - reflexivity.
  - reflexivity.
Defined.

(** X5: with [AVERAGE_SOURCE_TASKS], a table configured for a number of
    tasks other than one cannot be built: whatever the checkpoint's three
    tensors are, the averaged factor has no leading dimension [num_tasks]
    and the strict load raises. *)
Theorem average_needs_one_task :
  forall (F : Type) (HS : Scalar F) (env : environment F)
         (config : MultitaskPromptTuningConfig.t) (word_embeddings : tensor F)
         (w : world F) (path : string) (ckpt : gmap string (tensor F))
         (pe C R : tensor F),
    has_mode config AVERAGE_SOURCE_TASKS ->
    MultitaskPromptTuningConfig.prompt_tuning_init_state_dict_path config = Some path ->
    files env path = Ok ckpt ->
    ckpt !! "prefix_task_cols" = Some C ->
    ckpt !! "prefix_task_rows" = Some R ->
    ckpt !! "prompt_embeddings" = Some pe ->
    MultitaskPromptTuningConfig.num_tasks config <> 1 ->
    (MultitaskPromptEmbedding.__init__ env config word_embeddings w).2
    = Raise RuntimeError.
Proof.
  intros F HS env config we w path ckpt pe C R Hmode Hpath Hf HC HR Hpe Hne.
  eapply init_average_mismatch; try done.
  right. left. unfold torch.mean0_keepdim, cols_size.
  destruct (shape C); cbn [tinit shape]; intros Heq; [discriminate|].
  injection Heq as Heq _. by apply Hne.
Qed.

Lemma average_needs_one_task_witness :
  (MultitaskPromptEmbedding.__init__ example_env
     (example_config AVERAGE_SOURCE_TASKS (Some "source.pt") None (Some 2))
     no_word_embeddings empty_world).2 = Raise RuntimeError.
Proof.
  apply (average_needs_one_task float float_scalar example_env
           (example_config AVERAGE_SOURCE_TASKS (Some "source.pt") None (Some 2))
           no_word_embeddings empty_world "source.pt" source_checkpoint
           (Tensor [2; 1] [2; 3]%float) (Tensor [2; 2; 1] [1; 0.5; 3; 4]%float)
           (Tensor [2; 1; 1] [2; 6]%float)); try reflexivity.
  simpl. lia.
Defined.

(** X6: with [EXACT_SOURCE_TASK] and an index that selects a source task of
    both factors, a table configured for a number of tasks other than one
    cannot be built: the selected slice has leading dimension 1 and the
    strict load raises. *)
Theorem exact_needs_one_task :
  forall (F : Type) (HS : Scalar F) (env : environment F)
         (config : MultitaskPromptTuningConfig.t) (word_embeddings : tensor F)
         (w : world F) (path : string) (ckpt : gmap string (tensor F))
         (pe C R : tensor F) (n : nat) (shc shr : list nat) (k : Z),
    has_mode config EXACT_SOURCE_TASK ->
    MultitaskPromptTuningConfig.prompt_tuning_init_state_dict_path config = Some path ->
    files env path = Ok ckpt ->
    ckpt !! "prefix_task_cols" = Some C ->
    ckpt !! "prefix_task_rows" = Some R ->
    ckpt !! "prompt_embeddings" = Some pe ->
    MultitaskPromptTuningConfig.prompt_tuning_init_task config = Some k ->
    shape C = n :: shc -> shape R = n :: shr ->
    (- Z.of_nat n <= k < Z.of_nat n)%Z ->
    MultitaskPromptTuningConfig.num_tasks config <> 1 ->
    (MultitaskPromptEmbedding.__init__ env config word_embeddings w).2
    = Raise RuntimeError.
Proof.
  intros F HS env config we w path ckpt pe C R n shc shr k
    Hmode Hpath Hf HC HR Hpe Hk HsC HsR Hrange Hne.
  assert (Hsel : forall (t : tensor F) sh, shape t = n :: sh ->
            exists t0, torch.getitem0 (Some k) t = Ok t0).
  { intros t sh Hs. destruct (decide (k < 0)%Z).
    - eexists. apply (getitem0_negative t n sh); [done|lia].
    - eexists. apply (getitem0_nonneg t n sh); [done|lia]. }
  destruct (Hsel C shc HsC) as [c0 Hc0]. destruct (Hsel R shr HsR) as [r0 Hr0].
  eapply (init_exact_mismatch env config we w path ckpt pe C R c0 r0); try done.
  - by rewrite Hk.
  - by rewrite Hk.
  - right. left. unfold cols_size. intros Heq. injection Heq as Heq _. by apply Hne.
Qed.

Lemma exact_needs_one_task_witness :
  (MultitaskPromptEmbedding.__init__ example_env
     (example_config EXACT_SOURCE_TASK (Some "source.pt") (Some (Some 1%Z)) (Some 2))
     no_word_embeddings empty_world).2 = Raise RuntimeError.
Proof.
  apply (exact_needs_one_task float float_scalar example_env
           (example_config EXACT_SOURCE_TASK (Some "source.pt") (Some (Some 1%Z)) (Some 2))
           no_word_embeddings empty_world "source.pt" source_checkpoint
           (Tensor [2; 1] [2; 3]%float) (Tensor [2; 2; 1] [1; 0.5; 3; 4]%float)
           (Tensor [2; 1; 1] [2; 6]%float) 2 [2; 1] [1; 1] 1%Z); try reflexivity.
  - lia.
  - simpl. lia.
Defined.

(** X7: with [EXACT_SOURCE_TASK], a negative index [k] not below
    [-num_source_tasks] counts from the end: for a table of one task whose
    dimensions are the checkpoint's, construction succeeds and the factors
    hold, entry for entry, slice [num_source_tasks + k] of the checkpoint's
    factors. *)
Theorem negative_index_counts_from_the_end :
  forall (F : Type) (HS : Scalar F) (env : environment F)
         (config : MultitaskPromptTuningConfig.t) (word_embeddings : tensor F)
         (w : world F) (path : string) (ckpt : gmap string (tensor F))
         (pe C R : tensor F) (n : nat) (k : Z),
    has_mode config EXACT_SOURCE_TASK ->
    MultitaskPromptTuningConfig.prompt_tuning_init_state_dict_path config = Some path ->
    files env path = Ok ckpt ->
    ckpt !! "prefix_task_cols" = Some C ->
    ckpt !! "prefix_task_rows" = Some R ->
    ckpt !! "prompt_embeddings" = Some pe ->
    MultitaskPromptTuningConfig.prompt_tuning_init_task config = Some k ->
    (- Z.of_nat n <= k < 0)%Z ->
    MultitaskPromptTuningConfig.num_tasks config = 1 ->
    shape C = [n; total_virtual_tokens config;
               MultitaskPromptTuningConfig.num_ranks config] ->
    shape R = [n; MultitaskPromptTuningConfig.num_ranks config;
               MultitaskPromptTuningConfig.token_dim config] ->
    shape pe = base_size config ->
    exists w' self c r,
      MultitaskPromptEmbedding.__init__ env config word_embeddings w = (w', Ok self)
      /\ parameters w' self pe c r
      /\ (forall i j, i < total_virtual_tokens config ->
                      j < MultitaskPromptTuningConfig.num_ranks config ->
                      tget c [0; i; j] = tget C [Z.to_nat (Z.of_nat n + k); i; j])
      /\ (forall i j, i < MultitaskPromptTuningConfig.num_ranks config ->
                      j < MultitaskPromptTuningConfig.token_dim config ->
                      tget r [0; i; j] = tget R [Z.to_nat (Z.of_nat n + k); i; j]).
Proof.
  intros F HS env config we w path ckpt pe C R n k
    Hmode Hpath Hf HC HR Hpe Hk Hrange Hone HsC HsR Hspe.
  eexists _, _, _, _. split.
  { eapply init_exact_run; try done.
    - rewrite Hk. by eapply getitem0_negative.
    - rewrite Hk. by eapply getitem0_negative.
    - unfold cols_size. by rewrite Hone.
    - unfold rows_size. by rewrite Hone. }
  split; [apply loaded_parameters|].
  rewrite (Z.add_comm (Z.of_nat n) k).
  split; intros i j Hi Hj.
  - by rewrite (select_entry C n _ _ _ HsC) by (by apply in_bounds2).
  - by rewrite (select_entry R n _ _ _ HsR) by (by apply in_bounds2).
Qed.

Lemma negative_index_counts_from_the_end_witness :
  exists w' self c r,
    MultitaskPromptEmbedding.__init__ example_env
      (example_config EXACT_SOURCE_TASK (Some "source.pt") (Some (Some (-2)%Z)) None)
      no_word_embeddings empty_world = (w', Ok self)
    /\ parameters w' self (Tensor [2; 1] [2; 3]%float) c r
    /\ (forall i j, i < 2 -> j < 1 ->
          tget c [0; i; j] = tget (Tensor [2; 2; 1] [1; 0.5; 3; 4]%float) [0; i; j])
    /\ (forall i j, i < 1 -> j < 1 ->
          tget r [0; i; j] = tget (Tensor [2; 1; 1] [2; 6]%float) [0; i; j]).
Proof.
  apply (negative_index_counts_from_the_end float float_scalar example_env
           (example_config EXACT_SOURCE_TASK (Some "source.pt") (Some (Some (-2)%Z)) None)
           no_word_embeddings empty_world "source.pt" source_checkpoint
           (Tensor [2; 1] [2; 3]%float) (Tensor [2; 2; 1] [1; 0.5; 3; 4]%float)
           (Tensor [2; 1; 1] [2; 6]%float) 2 (-2)%Z); try reflexivity.
  lia.
Defined.

(** X8: with [EXACT_SOURCE_TASK] and the task index [None], indexing
    inserts an axis instead of selecting a task, so with three-dimensional
    checkpoint factors the tensor to load has five dimensions and the strict
    load raises, whatever the table's dimensions are. *)
Theorem none_task_index_raises :
  forall (F : Type) (HS : Scalar F) (env : environment F)
         (config : MultitaskPromptTuningConfig.t) (word_embeddings : tensor F)
         (w : world F) (path : string) (ckpt : gmap string (tensor F))
         (pe C R : tensor F) (n a b : nat),
    has_mode config EXACT_SOURCE_TASK ->
    MultitaskPromptTuningConfig.prompt_tuning_init_state_dict_path config = Some path ->
    files env path = Ok ckpt ->
    ckpt !! "prefix_task_cols" = Some C ->
    ckpt !! "prefix_task_rows" = Some R ->
    ckpt !! "prompt_embeddings" = Some pe ->
    MultitaskPromptTuningConfig.prompt_tuning_init_task config = None ->
    shape C = [n; a; b] ->
    (MultitaskPromptEmbedding.__init__ env config word_embeddings w).2
    = Raise RuntimeError.
Proof.
  intros F HS env config we w path ckpt pe C R n a b
    Hmode Hpath Hf HC HR Hpe Hk HsC.
  eapply (init_exact_mismatch env config we w path ckpt pe C R
            (torch.unsqueeze0 C) (torch.unsqueeze0 R)); try done.
  - by rewrite Hk.
  - by rewrite Hk.
  - right. left. unfold torch.unsqueeze0, cols_size. cbn [shape]. rewrite HsC.
    discriminate.
Qed.

Lemma none_task_index_raises_witness :
  (MultitaskPromptEmbedding.__init__ example_env
     (example_config EXACT_SOURCE_TASK (Some "source.pt") (Some None) None)
     no_word_embeddings empty_world).2 = Raise RuntimeError.
Proof.
  apply (none_task_index_raises float float_scalar example_env
           (example_config EXACT_SOURCE_TASK (Some "source.pt") (Some None) None)
           no_word_embeddings empty_world "source.pt" source_checkpoint
           (Tensor [2; 1] [2; 3]%float) (Tensor [2; 2; 1] [1; 0.5; 3; 4]%float)
           (Tensor [2; 1; 1] [2; 6]%float) 2 2 1); reflexivity.
Defined.

(** X9: with [ONLY_SOURCE_SHARED] the load is not strict, and a
    [prompt_embeddings] whose shape is not the base table's still makes the
    construction raise: a size mismatch is an error of every load. *)
Theorem shared_prompt_of_another_shape_raises :
  forall (F : Type) (HS : Scalar F) (env : environment F)
         (config : MultitaskPromptTuningConfig.t) (word_embeddings : tensor F)
         (w : world F) (path : string) (ckpt : gmap string (tensor F)) (pe : tensor F),
    has_mode config ONLY_SOURCE_SHARED ->
    MultitaskPromptTuningConfig.prompt_tuning_init_state_dict_path config = Some path ->
    files env path = Ok ckpt ->
    ckpt !! "prompt_embeddings" = Some pe ->
    shape pe <> base_size config ->
    (MultitaskPromptEmbedding.__init__ env config word_embeddings w).2
    = Raise RuntimeError.
Proof.
  intros F HS env config we w path ckpt pe Hmode Hpath Hf Hpe Hbad.
  by eapply init_shared_mismatch.
Qed.

Lemma shared_prompt_of_another_shape_raises_witness :
  (MultitaskPromptEmbedding.__init__ example_env
     (MultitaskPromptTuningConfig.new 3 1 1 (Some (Member ONLY_SOURCE_SHARED))
        (Some (Some "shared.pt")) None None None)
     no_word_embeddings empty_world).2 = Raise RuntimeError.
Proof.
  apply (shared_prompt_of_another_shape_raises float float_scalar example_env
           (MultitaskPromptTuningConfig.new 3 1 1 (Some (Member ONLY_SOURCE_SHARED))
              (Some (Some "shared.pt")) None None None)
           no_word_embeddings empty_world "shared.pt" shared_checkpoint
           (Tensor [2; 1] [2; 3]%float)); try reflexivity.
  discriminate.
Defined.

(** X10: with [EXACT_SOURCE_TASK], a checkpoint that lacks
    [prefix_task_cols] or [prefix_task_rows] makes the construction raise a
    [KeyError] for a key it lacks, right after the read: nothing is loaded. *)
Theorem exact_missing_factor_key_raises :
  forall (F : Type) (HS : Scalar F) (env : environment F)
         (config : MultitaskPromptTuningConfig.t) (word_embeddings : tensor F)
         (w : world F) (path : string) (ckpt : gmap string (tensor F)) (key : string),
    has_mode config EXACT_SOURCE_TASK ->
    MultitaskPromptTuningConfig.prompt_tuning_init_state_dict_path config = Some path ->
    files env path = Ok ckpt ->
    key ∈ ["prefix_task_cols"; "prefix_task_rows"] ->
    ckpt !! key = None ->
    exists key' w',
      ckpt !! key' = None
      /\ MultitaskPromptEmbedding.__init__ env config word_embeddings w
         = (w', Raise (KeyError key'))
      /\ heap w' = heap w ++ [base_table env config word_embeddings;
                              fresh_cols env config w; fresh_rows env config w]
      /\ log w' = log w ++ [EvNormal (cols_size config); EvNormal (rows_size config);
                            EvTorchLoad path].
Proof.
  intros F HS env config we w path ckpt key Hmode Hpath Hf Hkey Hnone.
  destruct (init_exact_missing env config we w path ckpt key) as (key' & Hk' & Hrun);
    try done.
  exists key', (checkpoint_read env config we w path). done.
Qed.

Lemma exact_missing_factor_key_raises_witness :
  exists key' w',
    shared_checkpoint !! key' = None
    /\ MultitaskPromptEmbedding.__init__ example_env
         (example_config EXACT_SOURCE_TASK (Some "shared.pt") None None)
         no_word_embeddings empty_world = (w', Raise (KeyError key'))
    /\ heap w' = [Tensor [2; 1] [0; 0]%float;
                  Tensor [1; 2; 1] [1; 2]%float;
                  Tensor [1; 1; 1] [3]%float]
    /\ log w' = [EvNormal [1; 2; 1]; EvNormal [1; 1; 1]; EvTorchLoad "shared.pt"].
Proof.
  apply (exact_missing_factor_key_raises float float_scalar example_env
           (example_config EXACT_SOURCE_TASK (Some "shared.pt") None None)
           no_word_embeddings empty_world "shared.pt" shared_checkpoint
           "prefix_task_rows"); try reflexivity.
  apply elem_of_cons. right. apply list_elem_of_singleton. reflexivity.
Defined.

(** X11: with [ONLY_SOURCE_SHARED], a checkpoint without [prompt_embeddings]
    makes the construction raise [KeyError] for that key right after the
    read. *)
Theorem shared_missing_prompt_embeddings_raises :
  forall (F : Type) (HS : Scalar F) (env : environment F)
         (config : MultitaskPromptTuningConfig.t) (word_embeddings : tensor F)
         (w : world F) (path : string) (ckpt : gmap string (tensor F)),
    has_mode config ONLY_SOURCE_SHARED ->
    MultitaskPromptTuningConfig.prompt_tuning_init_state_dict_path config = Some path ->
    files env path = Ok ckpt ->
    ckpt !! "prompt_embeddings" = None ->
    exists w',
      MultitaskPromptEmbedding.__init__ env config word_embeddings w
      = (w', Raise (KeyError "prompt_embeddings"))
      /\ log w' = log w ++ [EvNormal (cols_size config); EvNormal (rows_size config);
                            EvTorchLoad path].
Proof.
  intros F HS env config we w path ckpt Hmode Hpath Hf Hnone.
  exists (checkpoint_read env config we w path). split; [|done].
  by eapply init_shared_missing.
Qed.

(** A checkpoint that holds the factors and no shared prompt. *)
Definition factors_only_checkpoint : gmap string (tensor float) :=
  <["prefix_task_cols" := Tensor [1; 2; 1] [1; 0.5]%float]>
    (<["prefix_task_rows" := Tensor [1; 1; 1] [2]%float]> ∅).

Definition factors_only_env : environment float :=
  Environment (fun k => s_of_nat (k + 1)) (fun _ _ => 0%float)
    (fun _ => Ok factors_only_checkpoint).

Lemma shared_missing_prompt_embeddings_raises_witness :
  exists w',
    MultitaskPromptEmbedding.__init__ factors_only_env
      (example_config ONLY_SOURCE_SHARED (Some "factors.pt") None None)
      no_word_embeddings empty_world
    = (w', Raise (KeyError "prompt_embeddings"))
    /\ log w' = [EvNormal [1; 2; 1]; EvNormal [1; 1; 1]; EvTorchLoad "factors.pt"].
Proof.
  apply (shared_missing_prompt_embeddings_raises float float_scalar factors_only_env
           (example_config ONLY_SOURCE_SHARED (Some "factors.pt") None None)
           no_word_embeddings empty_world "factors.pt" factors_only_checkpoint);
    reflexivity.
Defined.

(** X12: a position outside the base table makes the lookup raise an index
    error before the task identifiers are looked at, whatever they are. *)
Theorem position_out_of_range_raises :
  forall (F : Type) (HS : Scalar F) (self : MultitaskPromptEmbedding.t) (w : world F)
         (W C R : tensor F) (indices tids : tensor Z) (v d : nat) (i : Z),
    parameters w self W C R ->
    shape W = [v; d] ->
    i ∈ data indices -> (i < 0 \/ Z.of_nat v <= i)%Z ->
    (MultitaskPromptEmbedding.forward self indices (Some tids) w).2 = Raise IndexError.
Proof.
  intros F HS self w W C R indices tids v d i Hp HW Hin Hout.
  apply outcome_raise. rewrite (forward_outcome self w W C R) by done.
  by eapply compose_position_out_of_range.
Qed.

Lemma position_out_of_range_raises_witness :
  (MultitaskPromptEmbedding.forward scenario_table (Tensor [1; 2] [0; 2]%Z)
     (Some (Tensor [3; 3] []%Z)) scenario_world).2 = Raise IndexError.
Proof.
  apply (position_out_of_range_raises float float_scalar scenario_table scenario_world
           (Tensor [2; 1] [2; 3]%float) (Tensor [1; 2; 1] [1; 0.5]%float)
           (Tensor [1; 1; 1] [2]%float) (Tensor [1; 2] [0; 2]%Z) (Tensor [3; 3] []%Z)
           2 1 2%Z).
  - repeat split.
  - reflexivity.
  - apply elem_of_cons. right. apply list_elem_of_singleton. reflexivity.
  - right. lia.
Defined.

(** X13: the tensor a lookup returns is a new one: its reference lies
    behind every tensor that existed before the call, so it is none of the
    parameters, and the call adds that one tensor to the heap and nothing
    else. *)
Theorem forward_result_is_fresh :
  forall (F : Type) (HS : Scalar F) (self : MultitaskPromptEmbedding.t)
         (indices : tensor Z) (task_ids : option (tensor Z)) (w w' : world F) (l : loc),
    MultitaskPromptEmbedding.forward self indices task_ids w = (w', Ok l) ->
    l = length (heap w) /\ exists out, heap w' = heap w ++ [out].
Proof. intros F HS self indices task_ids w w' l. apply forward_returns_fresh. Qed.

Lemma forward_result_is_fresh_witness :
  3 = length (heap scenario_world)
  /\ exists out,
       [Tensor [2; 1] [2; 3]%float; Tensor [1; 2; 1] [1; 0.5]%float;
        Tensor [1; 1; 1] [2]%float; Tensor [1; 2; 1] [4; 3]%float]
       = heap scenario_world ++ [out].
Proof.
  apply (forward_result_is_fresh float float_scalar scenario_table
           (Tensor [1; 2] [0; 1]%Z) (Some (Tensor [1] [0]%Z)) scenario_world
           (World [Tensor [2; 1] [2; 3]%float; Tensor [1; 2; 1] [1; 0.5]%float;
                   Tensor [1; 1; 1] [2]%float; Tensor [1; 2; 1] [4; 3]%float] 0 [])
           3).
  vm_compute. reflexivity.
Defined.

(** X14: one task identifier serves a whole batch: with positions of shape
    [[B, n]] and a single task identifier [t], the lookup returns a tensor of
    shape [[B, n, d]] in which every batch row is modulated by the factors of
    task [t]. *)
Theorem single_task_id_is_broadcast :
  forall (F : Type) (HS : Scalar F) (self : MultitaskPromptEmbedding.t) (w : world F)
         (W C R : tensor F) (indices tids : tensor Z) (v d T n r B : nat),
    parameters w self W C R ->
    shape W = [v; d] -> shape C = [T; n; r] -> shape R = [T; r; d] ->
    shape indices = [B; n] ->
    Forall (fun i => 0 <= i < Z.of_nat v)%Z (data indices) ->
    shape tids = [1] ->
    Forall (fun t => 0 <= t < Z.of_nat T)%Z (data tids) ->
    exists out,
      outcome (MultitaskPromptEmbedding.forward self indices (Some tids) w) = Ok out
      /\ shape out = [B; n; d] /\ wf out
      /\ forall b i j, b < B -> i < n -> j < d ->
           tget out [b; i; j]
           = s_mul (tget W [Z.to_nat (tget indices [b; i]); j])
               (s_sum (map (fun k => s_mul (tget C [Z.to_nat (tget tids [0]); i; k])
                                           (tget R [Z.to_nat (tget tids [0]); k; j]))
                           (seq 0 r))).
Proof.
  intros F HS self w W C R indices tids v d T n r B Hp HW HC HR Hi Hir Ht Htr.
  rewrite (forward_outcome self w W C R) by done.
  by eapply compose_single_task_id.
Qed.

Lemma single_task_id_is_broadcast_witness :
  exists out,
    outcome (MultitaskPromptEmbedding.forward scenario_table
               (Tensor [2; 2] [0; 1; 1; 0]%Z) (Some (Tensor [1] [0]%Z)) scenario_world)
    = Ok out
    /\ shape out = [2; 2; 1] /\ wf out
    /\ forall b i j, b < 2 -> i < 2 -> j < 1 ->
         tget out [b; i; j]
         = s_mul (tget (Tensor [2; 1] [2; 3]%float)
                    [Z.to_nat (tget (Tensor [2; 2] [0; 1; 1; 0]%Z) [b; i]); j])
             (s_sum (map (fun k =>
                       s_mul (tget (Tensor [1; 2; 1] [1; 0.5]%float)
                                [Z.to_nat (tget (Tensor [1] [0]%Z) [0]); i; k])
                             (tget (Tensor [1; 1; 1] [2]%float)
                                [Z.to_nat (tget (Tensor [1] [0]%Z) [0]); k; j]))
                     (seq 0 1))).
Proof.
  apply (single_task_id_is_broadcast float float_scalar scenario_table scenario_world
           (Tensor [2; 1] [2; 3]%float) (Tensor [1; 2; 1] [1; 0.5]%float)
           (Tensor [1; 1; 1] [2]%float) (Tensor [2; 2] [0; 1; 1; 0]%Z) (Tensor [1] [0]%Z)
           2 1 1 2 1 2).
  - repeat split.
  - reflexivity.
  - reflexivity.
  - reflexivity.
  - reflexivity.
  - repeat constructor; lia.
  - reflexivity.
  - repeat constructor; lia.
Defined.

(** X15: with positions of shape [[B, n]] within the table and task
    identifiers within the task dimension, a number of task identifiers that
    is neither [B] nor 1 makes the lookup raise [RuntimeError]: the in-place
    product cannot take the modulation's batch size. *)
Theorem task_id_count_mismatch_raises :
  forall (F : Type) (HS : Scalar F) (self : MultitaskPromptEmbedding.t) (w : world F)
         (W C R : tensor F) (indices tids : tensor Z) (v d T n r B B' : nat),
    parameters w self W C R ->
    shape W = [v; d] -> shape C = [T; n; r] -> shape R = [T; r; d] ->
    shape indices = [B; n] ->
    Forall (fun i => 0 <= i < Z.of_nat v)%Z (data indices) ->
    shape tids = [B'] ->
    Forall (fun t => 0 <= t < Z.of_nat T)%Z (data tids) ->
    B' <> B -> B' <> 1 ->
    (MultitaskPromptEmbedding.forward self indices (Some tids) w).2 = Raise RuntimeError.
Proof.
  intros F HS self w W C R indices tids v d T n r B B' Hp HW HC HR Hi Hir Ht Htr HB H1.
  apply outcome_raise. rewrite (forward_outcome self w W C R) by done.
  by eapply compose_task_count_mismatch.
Qed.

Lemma task_id_count_mismatch_raises_witness :
  (MultitaskPromptEmbedding.forward scenario_table (Tensor [1; 2] [0; 1]%Z)
     (Some (Tensor [2] [0; 0]%Z)) scenario_world).2 = Raise RuntimeError.
Proof.
  apply (task_id_count_mismatch_raises float float_scalar scenario_table scenario_world
           (Tensor [2; 1] [2; 3]%float) (Tensor [1; 2; 1] [1; 0.5]%float)
           (Tensor [1; 1; 1] [2]%float) (Tensor [1; 2] [0; 1]%Z) (Tensor [2] [0; 0]%Z)
           2 1 1 2 1 1 2).
  - repeat split.
  - reflexivity.
  - reflexivity.
  - reflexivity.
  - reflexivity.
  - repeat constructor; lia.
  - reflexivity.
  - repeat constructor; lia.
  - lia.
  - lia.
Defined.
